(** * azure_vm.py: provisioning of one Azure VM and its network

    A shallow embedding of [azure_vm.py].  The script is straight-line
    top-level code: it reads the process environment, builds the SDK
    clients, issues a fixed sequence of management requests, polls for the
    public IP address and writes a summary file.  Everything the script
    observes of the outside is collected in a [world]; everything it does to
    the outside is appended to a log of [event]s.

    Modelling conventions.
    - [os.environ] is a finite map from names to values.
    - [int(time.time())] is read from [clock], indexed by the number of
      readings made so far.
    - A management request is answered by the oracle of the [world], indexed
      by the number of requests issued so far; an answer [None] stands for
      the SDK call (or the [.result()] of its poller) raising.
    - A constructor of the SDK returns or raises as [azure_new] says, and
      reading a key file that exists succeeds or raises as [ssh_key_opens]
      says.
    - An exception is never caught by the script, so it ends the script
      ([Uncaught]); the interpreter then writes the traceback to standard
      error, which is part of the [run].
    - [print], [time.sleep] and writing the summary file are taken not to
      raise.
    - The [while] loop is run with fuel; [OutOfFuel] is the outcome of a loop
      that would need more iterations than the fuel allows. *)

From Stdlib Require Import ZArith Lia.
From stdpp Require Import base option list strings gmap pretty.

Local Open Scope Z_scope.


(** ** Provider requests *)

Inductive resource_kind :=
  | ResourceGroup | VirtualNetwork | Subnet | SecurityGroup | SecurityRule
  | PublicIp | NetworkInterface | VirtualMachine.

(** [rule_params] of the script (lines 89-98). *)
Record rule_params := {
  protocol : string;
  source_address_prefix : string;
  destination_address_prefix : string;
  access : string;
  direction : string;
  priority : Z;
  destination_port_range : string;
  source_port_range : string;
}.

(** [nic_params] (lines 115-123). *)
Record nic_params := {
  nic_location : string;
  ipconfig_name : string;
  ipconfig_subnet_id : string;
  ipconfig_public_ip_id : string;
  nic_security_group_id : string;
}.

(** [vm_params] (lines 138-168). *)
Record vm_params := {
  vm_location : string;
  vm_size : string;
  image_publisher : string;
  image_offer : string;
  image_sku : string;
  image_version : string;
  computer_name : string;
  admin_username : string;
  disable_password_authentication : bool;
  ssh_key_path_on_vm : string;
  ssh_key_data : string;
  vm_nic_id : string;
  vm_nic_primary : bool;
}.

(** The operations of the management API.  The first ten are the ones the
    script calls; [begin_delete] is the SDK's removal of a resource, which
    the script never calls. *)
Inductive request :=
  | resource_groups_list
  | resource_groups_create_or_update (rg location : string)
  | virtual_networks_begin_create_or_update
      (rg vnet location address_prefix : string)
  | subnets_begin_create_or_update (rg vnet subnet address_prefix : string)
  | network_security_groups_begin_create_or_update (rg nsg location : string)
  | security_rules_begin_create_or_update (rg nsg rule : string) (p : rule_params)
  | public_ip_addresses_begin_create_or_update
      (rg name location allocation_method sku : string)
  | network_interfaces_begin_create_or_update (rg name : string) (p : nic_params)
  | virtual_machines_begin_create_or_update (rg name : string) (p : vm_params)
  | public_ip_addresses_get (rg name : string)
  | begin_delete (k : resource_kind) (rg name : string).

(** ** Events and the world *)

Inductive event :=
  | Stdout (line : string)
  | Stderr (line : string)
  | Construct (class : string) (args : list string)
  | Call (r : request)
  | Sleep (seconds : Z)
  | WriteFile (path content : string).

Record world := {
  environ : gmap string string;
  clock : nat → Z;
  (** [os.path.expanduser("~/.ssh/id_rsa.pub")] *)
  ssh_key_path : string;
  (** [None]: the path does not exist; [Some k]: [k] is [f.read().strip()] *)
  ssh_key_file : option string;
  (** [false]: the path exists but [open] or [read] raises on it (a
      directory, a file without read permission) *)
  ssh_key_opens : bool;
  (** a constructor of the SDK, by class name and arguments: [false] when it
      raises *)
  azure_new : string → list string → bool;
  (** the lines the interpreter writes to standard error for the exception
      that ends the script, when one does *)
  traceback : list string;
  (** [resource_groups.list()]: the names of the groups *)
  azure_list : nat → option (list string);
  (** a [create_or_update]: the [id] of the resulting resource *)
  azure_put : nat → request → option string;
  (** [public_ip_addresses.get]: the [ip_address] of the result *)
  azure_get : nat → request → option (option string);
}.

(** ** The monad of the script *)

Record state := {
  requests : nat;
  ticks : nat;
  log : list event;
}.

Inductive halt :=
  | SysExit (code : Z)
  | Uncaught
  | OutOfFuel.

Definition M (A : Type) : Type := state → (A + halt) * state.

Global Instance M_mret : MRet M := λ A a st, (inl a, st).

Global Instance M_bind : MBind M := λ A B k m st,
  match m st with
  | (inl a, st') => k a st'
  | (inr h, st') => (inr h, st')
  end.

Definition stop {A} (h : halt) : M A := λ st, (inr h, st).

(** The three ways the script changes the state. *)
Definition logged (e : event) (st : state) : state :=
  {| requests := requests st; ticks := ticks st; log := log st ++ [e] |}.
Definition asked (r : event) (st : state) : state :=
  {| requests := S (requests st); ticks := ticks st; log := log st ++ [r] |}.
Definition ticked (st : state) : state :=
  {| requests := requests st; ticks := S (ticks st); log := log st |}.

Definition emit (e : event) : M unit := λ st, (inl tt, logged e st).

Definition print (s : string) : M unit := emit (Stdout s).
Definition eprint (s : string) : M unit := emit (Stderr s).
Definition sys_exit {A} (code : Z) : M A := stop (SysExit code).
Definition time_sleep (seconds : Z) : M unit := emit (Sleep seconds).

(** Python truthiness of a value that is [None] or a [str]. *)
Definition truthy (v : option string) : bool :=
  match v with
  | None => false
  | Some s => if decide (s = "") then false else true
  end.

(** How an f-string renders such a value. *)
Definition str (v : option string) : string := default "None" v.

(** [for x in xs: body], threading the variables the body assigns. *)
Fixpoint for_ {A S} (xs : list A) (body : A → S → M S) (s : S) : M S :=
  match xs with
  | [] => mret s
  | x :: xs' => s' ← body x s; for_ xs' body s'
  end.

(** [while cond: body], threading the variables the body assigns. *)
Fixpoint while {S} (fuel : nat) (cond : S → bool) (body : S → M S) (s : S)
    : M S :=
  if cond s then
    match fuel with
    | O => stop OutOfFuel
    | Datatypes.S fuel' => s' ← body s; while fuel' cond body s'
    end
  else mret s.

Section Script.
Context (w : world).

(** [int(time.time())] *)
Definition time_time : M Z := λ st, (inl (clock w (ticks st)), ticked st).

(** Issue request [r], answered by [oracle]. *)
Definition call {A} (oracle : nat → option A) (r : request) : M A := λ st,
  match oracle (requests st) with
  | Some a => (inl a, asked (Call r) st)
  | None => (inr Uncaught, asked (Call r) st)
  end.

Definition list_ : M (list string) :=
  call (azure_list w) resource_groups_list.
Definition put (r : request) : M string :=
  call (λ n, azure_put w n r) r.
Definition get (r : request) : M (option string) :=
  call (λ n, azure_get w n r) r.

(** lines 12-17 *)
Definition get_env_variable (var_name : string) (required : bool)
    (default_ : option string) : M (option string) :=
  let value := from_option Some default_ (environ w !! var_name) in
  (if required && negb (truthy value) then
     eprint ("Error: Environment variable " +:+ var_name +:+ " is required.") ;;
     sys_exit 1
   else mret tt) ;;
  mret value.

(** lines 20-31 *)
Definition credentials : M (string * string * string * string * string) :=
  instr_sub ← get_env_variable "INSTRUQT_AZURE_SUBSCRIPTIONS" true None;
  let spn_id_var :=
    "INSTRUQT_AZURE_SUBSCRIPTION_" +:+ str instr_sub +:+ "_SPN_ID" in
  let spn_password_var :=
    "INSTRUQT_AZURE_SUBSCRIPTION_" +:+ str instr_sub +:+ "_SPN_PASSWORD" in
  let tenant_id_var :=
    "INSTRUQT_AZURE_SUBSCRIPTION_" +:+ str instr_sub +:+ "_TENANT_ID" in
  spn_id ← get_env_variable spn_id_var true None;
  spn_password ← get_env_variable spn_password_var true None;
  tenant_id ← get_env_variable tenant_id_var true None;
  subscription_id ← get_env_variable "AZURE_SUBSCRIPTION_ID" true None;
  let location := default "eastus" (environ w !! "AZURE_LOCATION") in
  print ("Using Azure location: " +:+ location) ;;
  mret (str spn_id, str spn_password, str tenant_id, str subscription_id,
       location).

(** Build an object of the SDK. *)
Definition construct (class : string) (args : list string) : M unit := λ st,
  if azure_new w class args then (inl tt, logged (Construct class args) st)
  else (inr Uncaught, st).

(** lines 34-43 *)
Definition clients (spn_id spn_password tenant_id subscription_id : string)
    : M unit :=
  construct "ClientSecretCredential" [tenant_id; spn_id; spn_password] ;;
  construct "ResourceManagementClient" [subscription_id] ;;
  construct "NetworkManagementClient" [subscription_id] ;;
  construct "ComputeManagementClient" [subscription_id].

(** lines 46-59 *)
Definition determine_resource_group (location : string) : M string :=
  let rg_name := environ w !! "AZURE_RESOURCE_GROUP" in
  if truthy rg_name then
    print ("Using resource group from AZURE_RESOURCE_GROUP: " +:+ str rg_name) ;;
    mret (str rg_name)
  else
    rgs ← list_;
    match rgs with
    | rg0 :: _ =>
        let rg_name := rg0 in
        print ("Found existing resource group: " +:+ rg_name) ;;
        mret rg_name
    | [] =>
        now ← time_time;
        let rg_name := "ArmResourceGroup-" +:+ pretty now in
        print ("No existing resource groups found; creating new one: "
               +:+ rg_name) ;;
        put (resource_groups_create_or_update rg_name location) ;;
        mret rg_name
    end.

(** lines 62-75; returns [subnet_result.id] *)
Definition create_network (rg_name location : string) : M string :=
  let vnet_name := "ArmVNet-" +:+ rg_name in
  let subnet_name := "ArmSubnet" in
  let address_prefix := "10.0.0.0/16" in
  let subnet_prefix := "10.0.0.0/24" in
  print ("Creating virtual network " +:+ vnet_name +:+ " and subnet "
         +:+ subnet_name +:+ "...") ;;
  put (virtual_networks_begin_create_or_update
         rg_name vnet_name location address_prefix) ;;
  subnet_id ← put (subnets_begin_create_or_update
                     rg_name vnet_name subnet_name subnet_prefix);
  mret subnet_id.

(** line 84 *)
Definition ports : list Z :=
  [22; 80; 443; 3306; 5432; 6379; 27017; 5000; 8080; 8443].

(** lines 87-100: the body of the loop over [ports] *)
Definition create_rule (rg_name nsg_name : string) (port : Z) (priority : Z)
    : M Z :=
  let rule_name := "AllowTCP" +:+ pretty port in
  print ("Creating NSG rule " +:+ rule_name +:+ " for port "
         +:+ pretty port +:+ "...") ;;
  let rule_params := {|
    protocol := "Tcp";
    source_address_prefix := "*";
    destination_address_prefix := "*";
    access := "Allow";
    direction := "Inbound";
    priority := priority;
    destination_port_range := pretty port;
    source_port_range := "*";
  |} in
  put (security_rules_begin_create_or_update
         rg_name nsg_name rule_name rule_params) ;;
  mret (priority + 10).

(** lines 78-100; returns [nsg_result.id] *)
Definition create_nsg (rg_name location : string) : M string :=
  now ← time_time;
  let nsg_name := "ArmNSG-" +:+ rg_name +:+ "-" +:+ pretty now in
  print ("Creating network security group " +:+ nsg_name +:+ "...") ;;
  nsg_id ← put (network_security_groups_begin_create_or_update
                  rg_name nsg_name location);
  let priority := 1000 in
  for_ ports (create_rule rg_name nsg_name) priority ;;
  mret nsg_id.

(** lines 103-110; returns [pubip_name] and [pubip_result.id] *)
Definition create_public_ip (rg_name location : string)
    : M (string * string) :=
  now ← time_time;
  let pubip_name := "ArmPublicIP-" +:+ rg_name +:+ "-" +:+ pretty now in
  print ("Creating public IP " +:+ pubip_name +:+ "...") ;;
  pubip_id ← put (public_ip_addresses_begin_create_or_update
                    rg_name pubip_name location "Static" "Basic");
  mret (pubip_name, pubip_id).

(** lines 113-124; returns [nic_result.id] *)
Definition create_nic (rg_name location subnet_id pubip_id nsg_id : string)
    : M string :=
  now ← time_time;
  let nic_name := "ArmNIC-" +:+ rg_name +:+ "-" +:+ pretty now in
  print ("Creating network interface " +:+ nic_name +:+ "...") ;;
  let nic_params := {|
    nic_location := location;
    ipconfig_name := "ipconfig1";
    ipconfig_subnet_id := subnet_id;
    ipconfig_public_ip_id := pubip_id;
    nic_security_group_id := nsg_id;
  |} in
  put (network_interfaces_begin_create_or_update rg_name nic_name nic_params).

(** lines 127-169; returns [vm_name] *)
Definition create_vm (rg_name location nic_id : string) : M string :=
  now ← time_time;
  let vm_name := "ArmVM-" +:+ rg_name +:+ "-" +:+ pretty now in
  print ("Creating virtual machine " +:+ vm_name +:+ "...") ;;
  ssh_pub_key ←
    match ssh_key_file w with
    | None =>
        eprint ("Error: SSH public key not found at " +:+ ssh_key_path w) ;;
        sys_exit 1
    | Some key => if ssh_key_opens w then mret key else stop Uncaught
    end;
  let vm_params := {|
    vm_location := location;
    vm_size := "Standard_A1_v5";
    image_publisher := "Canonical";
    image_offer := "UbuntuServer";
    image_sku := "22_04-lts";
    image_version := "latest";
    computer_name := vm_name;
    admin_username := "azureuser";
    disable_password_authentication := true;
    ssh_key_path_on_vm := "/home/azureuser/.ssh/authorized_keys";
    ssh_key_data := ssh_pub_key;
    vm_nic_id := nic_id;
    vm_nic_primary := true;
  |} in
  put (virtual_machines_begin_create_or_update rg_name vm_name vm_params) ;;
  mret vm_name.

(** lines 176-177 *)
Definition timeout : Z := 300.
Definition interval : Z := 10.

(** lines 179-183: condition and body of the polling loop, over the
    variables [public_ip] and [elapsed] *)
Definition poll_cond (s : option string * Z) : bool :=
  negb (truthy s.1) && bool_decide (s.2 < timeout).

Definition poll_body (rg_name pubip_name : string) (s : option string * Z)
    : M (option string * Z) :=
  time_sleep interval ;;
  let elapsed := s.2 + interval in
  public_ip ← get (public_ip_addresses_get rg_name pubip_name);
  mret (public_ip, elapsed).

(** lines 172-183; returns [public_ip] *)
Definition retrieve_public_ip (fuel : nat) (rg_name pubip_name : string)
    : M (option string) :=
  public_ip ← get (public_ip_addresses_get rg_name pubip_name);
  let elapsed := 0 in
  s ← while fuel poll_cond (poll_body rg_name pubip_name)
        (public_ip, elapsed);
  mret s.1.

(** lines 201-214 *)
Definition info (rg_name vm_name location public_ip ssh_cmd : string)
    : string :=
  "
Azure ARM-based VM details:

Resource Group: " +:+ rg_name +:+ "
VM Name:        " +:+ vm_name +:+ "
Location:       " +:+ location +:+ "
Public IP:      " +:+ public_ip +:+ "

SSH command:
  " +:+ ssh_cmd +:+ "

To delete all resources, run:
  az group delete --name " +:+ rg_name +:+ " --yes --no-wait
".

Definition info_path : string := "/tmp/azure-instance-info.txt".

(** lines 185-218 *)
Definition report (rg_name vm_name location : string)
    (public_ip : option string) : M unit :=
  (if negb (truthy public_ip) then
     eprint "Error: Timed out waiting for public IP assignment." ;;
     sys_exit 1
   else mret tt) ;;
  let ssh_cmd := "ssh azureuser@" +:+ str public_ip in
  print "================================================================" ;;
  print "Azure ARM-based VM details:" ;;
  print ("  Resource Group: " +:+ rg_name) ;;
  print ("  VM Name:        " +:+ vm_name) ;;
  print ("  Location:       " +:+ location) ;;
  print ("  Public IP:      " +:+ str public_ip) ;;
  print "================================================================" ;;
  print "To SSH into your VM, run:" ;;
  print ("  " +:+ ssh_cmd) ;;
  print "================================================================" ;;
  emit (WriteFile info_path
          (info rg_name vm_name location (str public_ip) ssh_cmd)) ;;
  print ("Instance info saved to " +:+ info_path +:+ ".").

(** lines 62-124: the network of the virtual machine in group [rg_name].
    Returns [pubip_name] and [nic_result.id]. *)
Definition create_networking (rg_name location : string)
    : M (string * string) :=
  subnet_id ← create_network rg_name location;
  nsg_id ← create_nsg rg_name location;
  '(pubip_name, pubip_id) ← create_public_ip rg_name location;
  nic_id ← create_nic rg_name location subnet_id pubip_id nsg_id;
  mret (pubip_name, nic_id).

(** lines 20-124: the script before the virtual machine.  Returns
    [rg_name], [location], [pubip_name] and [nic_result.id]. *)
Definition networking : M (string * string * string * string) :=
  '(spn_id, spn_password, tenant_id, subscription_id, location)
    ← credentials;
  clients spn_id spn_password tenant_id subscription_id ;;
  rg_name ← determine_resource_group location;
  '(pubip_name, nic_id) ← create_networking rg_name location;
  mret (rg_name, location, pubip_name, nic_id).

(** lines 127-183: the virtual machine and its address.  Returns [vm_name]
    and [public_ip]. *)
Definition deploy_vm (fuel : nat) (rg_name location pubip_name nic_id : string)
    : M (string * option string) :=
  vm_name ← create_vm rg_name location nic_id;
  public_ip ← retrieve_public_ip fuel rg_name pubip_name;
  mret (vm_name, public_ip).

(** lines 20-183: the script before the summary.  Returns [rg_name],
    [vm_name], [location] and [public_ip]. *)
Definition provision (fuel : nat)
    : M (string * string * string * option string) :=
  '(rg_name, location, pubip_name, nic_id) ← networking;
  '(vm_name, public_ip) ← deploy_vm fuel rg_name location pubip_name nic_id;
  mret (rg_name, vm_name, location, public_ip).

(** The whole script. *)
Definition main (fuel : nat) : M unit :=
  '(rg_name, vm_name, location, public_ip) ← provision fuel;
  report rg_name vm_name location public_ip.

End Script.

Definition initial : state := {| requests := 0; ticks := 0; log := [] |}.

(** What the interpreter does when the script ends: for an exception that
    nothing caught it writes the traceback to standard error. *)
Definition interpreter (w : world) (res : (unit + halt) * state)
    : (unit + halt) * state :=
  match res.1 with
  | inr Uncaught =>
      (res.1,
       {| requests := requests res.2; ticks := ticks res.2;
          log := log res.2 ++ map Stderr (traceback w) |})
  | _ => res
  end.

(** A run of the script from a fresh process. *)
Definition run (fuel : nat) (w : world) : (unit + halt) * state :=
  interpreter w (main w fuel initial).

(** The exit status of the process. *)
Definition exit_status (r : unit + halt) : Z :=
  match r with
  | inl _ => 0
  | inr (SysExit code) => code
  | inr Uncaught => 1
  | inr OutOfFuel => 1
  end.

(** * Vocabulary of the statements *)

(** The requests among the events of a log. *)
Fixpoint calls (l : list event) : list request :=
  match l with
  | [] => []
  | Call r :: l' => r :: calls l'
  | _ :: l' => calls l'
  end.

(** The files written (path and content) among the events of a log. *)
Fixpoint writes (l : list event) : list (string * string) :=
  match l with
  | [] => []
  | WriteFile path content :: l' => (path, content) :: writes l'
  | _ :: l' => writes l'
  end.

(** From [st] to [st'] the script issued the requests [rs] and wrote no
    file. *)
Definition issued (st st' : state) (rs : list request) : Prop :=
  calls (log st') = calls (log st) ++ rs ∧ writes (log st') = writes (log st).

(** The resource a request creates, if it is a creation: its kind, its
    resource group and its name below the group. *)
Definition creates (r : request)
    : option (resource_kind * string * list string) :=
  match r with
  | resource_groups_create_or_update rg _ => Some (ResourceGroup, rg, [])
  | virtual_networks_begin_create_or_update rg vnet _ _ =>
      Some (VirtualNetwork, rg, [vnet])
  | subnets_begin_create_or_update rg vnet subnet _ =>
      Some (Subnet, rg, [vnet; subnet])
  | network_security_groups_begin_create_or_update rg nsg _ =>
      Some (SecurityGroup, rg, [nsg])
  | security_rules_begin_create_or_update rg nsg rule _ =>
      Some (SecurityRule, rg, [nsg; rule])
  | public_ip_addresses_begin_create_or_update rg name _ _ _ =>
      Some (PublicIp, rg, [name])
  | network_interfaces_begin_create_or_update rg name _ =>
      Some (NetworkInterface, rg, [name])
  | virtual_machines_begin_create_or_update rg name _ =>
      Some (VirtualMachine, rg, [name])
  | _ => None
  end.

Definition is_delete (r : request) : bool :=
  match r with
  | begin_delete _ _ _ => true
  | _ => false
  end.



Definition is_rg_create (r : request) : bool :=
  match r with
  | resource_groups_create_or_update _ _ => true
  | _ => false
  end.

(** The message of [get_env_variable] for variable [var_name]. *)
Definition required_msg (var_name : string) : string :=
  "Error: Environment variable " +:+ var_name +:+ " is required.".

(** The variables the script requires (lines 20-28); the three derived names
    exist once INSTRUQT_AZURE_SUBSCRIPTIONS has a value. *)
Definition required_variables (w : world) : list string :=
  "INSTRUQT_AZURE_SUBSCRIPTIONS" ::
  match environ w !! "INSTRUQT_AZURE_SUBSCRIPTIONS" with
  | Some instr_sub =>
      [ "INSTRUQT_AZURE_SUBSCRIPTION_" +:+ instr_sub +:+ "_SPN_ID";
        "INSTRUQT_AZURE_SUBSCRIPTION_" +:+ instr_sub +:+ "_SPN_PASSWORD";
        "INSTRUQT_AZURE_SUBSCRIPTION_" +:+ instr_sub +:+ "_TENANT_ID" ]
  | None => []
  end ++ ["AZURE_SUBSCRIPTION_ID"].

(** Weakest precondition of a computation of the script. *)
Definition wp {A} (m : M A) (st : state) (Q : A + halt → state → Prop)
    : Prop :=
  Q (m st).1 (m st).2.

(** [sub] occurs in [s]. *)
Definition contains (s sub : string) : Prop :=
  ∃ pre post, s = pre +:+ sub +:+ post.

(** One round of the polling loop. *)
Definition poll_round (rg_name pubip_name : string) : list event :=
  [Sleep 10; Call (public_ip_addresses_get rg_name pubip_name)].

(** The inbound rule for a port at a priority. *)
Definition inbound_rule (rg_name nsg_name : string) (pp : Z * Z) : request :=
  security_rules_begin_create_or_update rg_name nsg_name
    ("AllowTCP" +:+ pretty pp.1)
    {| protocol := "Tcp";
       source_address_prefix := "*";
       destination_address_prefix := "*";
       access := "Allow";
       direction := "Inbound";
       priority := pp.2;
       destination_port_range := pretty pp.1;
       source_port_range := "*" |}.

(** Ports paired with priorities that start at [priority] and go up by 10. *)
Fixpoint prioritised (ports : list Z) (priority : Z) : list (Z * Z) :=
  match ports with
  | [] => []
  | port :: ports' => (port, priority) :: prioritised ports' (priority + 10)
  end.

(** The ten ports with their priorities, written out. *)
Definition fixed_rules : list (Z * Z) :=
  [ (22, 1000); (80, 1010); (443, 1020); (3306, 1030); (5432, 1040);
    (6379, 1050); (27017, 1060); (5000, 1070); (8080, 1080); (8443, 1090) ].

(** The names and identifiers that vary from run to run. *)
Record deployment := {
  d_rg : string;
  d_location : string;
  d_nsg : string;
  d_pubip : string;
  d_nic : string;
  d_vm : string;
  d_subnet_id : string;
  d_nsg_id : string;
  d_pubip_id : string;
  d_nic_id : string;
  d_key : string;
}.

(** The three forms of the resource-group step. *)
Definition rg_steps (rg_name location : string) : list (list request) :=
  [ [];
    [resource_groups_list];
    [resource_groups_list;
     resource_groups_create_or_update rg_name location] ].

Definition vnet_request (d : deployment) : request :=
  virtual_networks_begin_create_or_update
    (d_rg d) ("ArmVNet-" +:+ d_rg d) (d_location d) "10.0.0.0/16".

Definition subnet_request (d : deployment) : request :=
  subnets_begin_create_or_update
    (d_rg d) ("ArmVNet-" +:+ d_rg d) "ArmSubnet" "10.0.0.0/24".

Definition nsg_request (d : deployment) : request :=
  network_security_groups_begin_create_or_update
    (d_rg d) (d_nsg d) (d_location d).

Definition rule_requests (d : deployment) : list request :=
  map (inbound_rule (d_rg d) (d_nsg d)) fixed_rules.

Definition pubip_request (d : deployment) : request :=
  public_ip_addresses_begin_create_or_update
    (d_rg d) (d_pubip d) (d_location d) "Static" "Basic".

Definition nic_request (d : deployment) : request :=
  network_interfaces_begin_create_or_update (d_rg d) (d_nic d)
    {| nic_location := d_location d;
       ipconfig_name := "ipconfig1";
       ipconfig_subnet_id := d_subnet_id d;
       ipconfig_public_ip_id := d_pubip_id d;
       nic_security_group_id := d_nsg_id d |}.

Definition vm_request (d : deployment) : request :=
  virtual_machines_begin_create_or_update (d_rg d) (d_vm d)
    {| vm_location := d_location d;
       vm_size := "Standard_A1_v5";
       image_publisher := "Canonical";
       image_offer := "UbuntuServer";
       image_sku := "22_04-lts";
       image_version := "latest";
       computer_name := d_vm d;
       admin_username := "azureuser";
       disable_password_authentication := true;
       ssh_key_path_on_vm := "/home/azureuser/.ssh/authorized_keys";
       ssh_key_data := d_key d;
       vm_nic_id := d_nic_id d;
       vm_nic_primary := true |}.

Definition poll_request (d : deployment) : request :=
  public_ip_addresses_get (d_rg d) (d_pubip d).

(** The requests up to and including the network interface, after the
    resource-group step. *)
Definition network_requests (d : deployment) : list request :=
  [vnet_request d; subnet_request d; nsg_request d] ++ rule_requests d ++
  [pubip_request d; nic_request d].

(** All requests of a run with [n] readings of the public IP address, after
    the resource-group step [rgp]. *)
Definition all_requests (d : deployment) (rgp : list request) (n : nat)
    : list request :=
  rgp ++ network_requests d ++ [vm_request d] ++ replicate n (poll_request d).

(** The summary the script writes for address [ip]. *)
Definition summary (d : deployment) (ip : string) : event :=
  WriteFile "/tmp/azure-instance-info.txt"
    (info (d_rg d) (d_vm d) (d_location d) ip ("ssh azureuser@" +:+ ip)).

(** The shape of a run that ended with [r] in state [st]: the requests are
    an initial part of one fixed sequence, the whole of it when the run
    completes, and the summary is written last. *)
Definition shaped (w : world) (fuel : nat) (r : unit + halt) (st : state)
    : Prop :=
  ∃ d rgp (n : nat),
    rgp ∈ rg_steps (d_rg d) (d_location d) ∧ (n ≤ 31)%nat ∧
    (∀ rg_name l,
       resource_groups_create_or_update rg_name l ∈ calls (log st) →
       truthy (environ w !! "AZURE_RESOURCE_GROUP") = false ∧
       azure_list w 0 = Some [] ∧
       (∃ rest, calls (log st) =
          resource_groups_list ::
          resource_groups_create_or_update rg_name l :: rest) ∧
       rg_name = "ArmResourceGroup-" +:+ pretty (clock w 0)) ∧
    match r with
    | inl _ =>
        (1 ≤ n)%nat ∧
        ∃ ip l,
          ip ≠ "" ∧
          azure_get w (requests st - 1) (poll_request d) = Some (Some ip) ∧
          log st =
            l ++ [summary d ip;
                  Stdout "Instance info saved to /tmp/azure-instance-info.txt."] ∧
          calls l = all_requests d rgp n ∧
          writes l = []
    | inr h =>
        (h = Uncaught ∨ h = SysExit 1 ∨ (h = OutOfFuel ∧ (fuel < 30)%nat)) ∧
        calls (log st) `prefix_of` all_requests d rgp n ∧
        writes (log st) = []
    end.

(** ** Vocabulary of the statements about every run *)

(** The lines written to standard error, in order, by the script and by
    the interpreter. *)
Fixpoint errs (l : list event) : list string :=
  match l with
  | [] => []
  | Stderr line :: l' => line :: errs l'
  | _ :: l' => errs l'
  end.

Definition is_construct (e : event) : bool :=
  match e with
  | Construct _ _ => true
  | _ => false
  end.

(** The resource group a request names, if it names one. *)
Definition group_of (r : request) : option string :=
  match r with
  | resource_groups_list => None
  | resource_groups_create_or_update rg _ => Some rg
  | virtual_networks_begin_create_or_update rg _ _ _ => Some rg
  | subnets_begin_create_or_update rg _ _ _ => Some rg
  | network_security_groups_begin_create_or_update rg _ _ => Some rg
  | security_rules_begin_create_or_update rg _ _ _ => Some rg
  | public_ip_addresses_begin_create_or_update rg _ _ _ _ => Some rg
  | network_interfaces_begin_create_or_update rg _ _ => Some rg
  | virtual_machines_begin_create_or_update rg _ _ => Some rg
  | public_ip_addresses_get rg _ => Some rg
  | begin_delete _ rg _ => Some rg
  end.

(** The location a request names, if it names one. *)
Definition location_of (r : request) : option string :=
  match r with
  | resource_groups_create_or_update _ location => Some location
  | virtual_networks_begin_create_or_update _ _ location _ => Some location
  | network_security_groups_begin_create_or_update _ _ location =>
      Some location
  | public_ip_addresses_begin_create_or_update _ _ location _ _ =>
      Some location
  | network_interfaces_begin_create_or_update _ _ p => Some (nic_location p)
  | virtual_machines_begin_create_or_update _ _ p => Some (vm_location p)
  | _ => None
  end.

(** The group the script settles on (lines 46-59): the one named in the
    environment, else the first one listed, else a new one named after the
    first reading of the clock. *)
Definition chosen_group (w : world) : string :=
  if truthy (environ w !! "AZURE_RESOURCE_GROUP") then
    str (environ w !! "AZURE_RESOURCE_GROUP")
  else
    match azure_list w 0 with
    | Some (rg0 :: _) => rg0
    | _ => "ArmResourceGroup-" +:+ pretty (clock w 0)
    end.

(** The location the script works in (line 29). *)
Definition chosen_location (w : world) : string :=
  default "eastus" (environ w !! "AZURE_LOCATION").

(** Request [r] stays in group [g] and location [l]. *)
Definition targets (g l : string) (r : request) : Prop :=
  (∀ g', group_of r = Some g' → g' = g) ∧
  (∀ l', location_of r = Some l' → l' = l).

Definition halted {A} (r : A + halt) : option halt :=
  match r with
  | inl _ => None
  | inr h => Some h
  end.

(** The SDK raises on request [r] when it is the [n]-th request of the run,
    counted from 0. *)
Definition refused (w : world) (n : nat) (r : request) : Prop :=
  match r with
  | resource_groups_list => azure_list w n = None
  | public_ip_addresses_get _ _ => azure_get w n r = None
  | _ => azure_put w n r = None
  end.

(** The two lines that precede [sys.exit(1)] once the clients are built
    (lines 132-134 and 185-187). *)
Definition exit_reason (w : world) (msg : string) : Prop :=
  (msg = "Error: SSH public key not found at " +:+ ssh_key_path w ∧
   ssh_key_file w = None) ∨
  msg = "Error: Timed out waiting for public IP assignment.".

(** An exception ended the script after its clients were built, [evs] being
    its events since then and [n0] the number of requests made before them:
    either the key file exists and reading it raised, or the SDK raised on a
    request, which is then the last event. *)
Definition raised (w : world) (n0 : nat) (evs : list event) : Prop :=
  ((∃ key, ssh_key_file w = Some key) ∧ ssh_key_opens w = false) ∨
  (∃ pre r, evs = pre ++ [Call r] ∧ refused w (n0 + length (calls pre)) r).

(** What holds of the events [evs] of the script after its clients are
    built, [n0] requests having been made before them, when it went on
    ([o = None]) or ended with [o = Some h]: every request stays in group
    [g] and location [l], nothing more is constructed, the script writes to
    standard error only the line that precedes [sys.exit(1)], and an
    exception has one of the causes of [raised]. *)
Definition orderly (w : world) (g l : string) (n0 : nat) (o : option halt)
    (evs : list event) : Prop :=
  Forall (targets g l) (calls evs) ∧
  Forall (λ e, is_construct e = false) evs ∧
  match o with
  | Some (SysExit code) =>
      code = 1 ∧
      ∃ msg, errs evs = [msg] ∧ last evs = Some (Stderr msg) ∧
             exit_reason w msg
  | Some Uncaught => errs evs = [] ∧ raised w n0 evs
  | _ => errs evs = []
  end.

Definition traced (w : world) (g l : string) (st st' : state)
    (o : option halt) : Prop :=
  ∃ evs,
    log st' = log st ++ evs ∧
    requests st' = (requests st + length (calls evs))%nat ∧
    orderly w g l (requests st) o evs.

(** Why the script stops before the summary: a required variable is unset
    or empty, a constructor of the SDK raised, the key file is missing or
    reading it raised, the SDK raised on a request, or the polling loop was
    given too little room. *)
Definition gave_up (w : world) (fuel : nat) (h : halt) : Prop :=
  (h = SysExit 1 ∧
   ∃ name, name ∈ required_variables w ∧
           truthy (environ w !! name) = false) ∨
  (h = Uncaught ∧ ∃ class args, azure_new w class args = false) ∨
  (h = SysExit 1 ∧ ssh_key_file w = None) ∨
  (h = Uncaught ∧ ssh_key_opens w = false) ∨
  (h = Uncaught ∧ ∃ n r, refused w n r) ∨
  (h = OutOfFuel ∧ (fuel < 30)%nat).

(** The requests of the resource-group step (lines 46-59). *)
Definition rg_plan (w : world) : list request :=
  if truthy (environ w !! "AZURE_RESOURCE_GROUP") then []
  else
    match azure_list w 0 with
    | Some (_ :: _) => [resource_groups_list]
    | _ => [resource_groups_list;
            resource_groups_create_or_update
              (chosen_group w) (chosen_location w)]
    end.

(** The five required variables are set, to these values. *)
Definition credentials_set (w : world)
    (instr_sub spn_id spn_password tenant_id subscription_id : string)
    : Prop :=
  environ w !! "INSTRUQT_AZURE_SUBSCRIPTIONS" = Some instr_sub ∧
  environ w !! ("INSTRUQT_AZURE_SUBSCRIPTION_" +:+ instr_sub +:+ "_SPN_ID")
    = Some spn_id ∧
  environ w !! ("INSTRUQT_AZURE_SUBSCRIPTION_" +:+ instr_sub +:+
                "_SPN_PASSWORD") = Some spn_password ∧
  environ w !! ("INSTRUQT_AZURE_SUBSCRIPTION_" +:+ instr_sub +:+ "_TENANT_ID")
    = Some tenant_id ∧
  environ w !! "AZURE_SUBSCRIPTION_ID" = Some subscription_id ∧
  instr_sub ≠ "" ∧ spn_id ≠ "" ∧ spn_password ≠ "" ∧ tenant_id ≠ "" ∧
  subscription_id ≠ "".

(** What the script does before its first request (lines 31-43). *)
Definition preamble (w : world)
    (spn_id spn_password tenant_id subscription_id : string) : list event :=
  [ Stdout ("Using Azure location: " +:+ chosen_location w);
    Construct "ClientSecretCredential" [tenant_id; spn_id; spn_password];
    Construct "ResourceManagementClient" [subscription_id];
    Construct "NetworkManagementClient" [subscription_id];
    Construct "ComputeManagementClient" [subscription_id] ].

(** ** Worlds used to exercise the statements *)

Definition env_ok : gmap string string :=
  list_to_map
    [ ("INSTRUQT_AZURE_SUBSCRIPTIONS", "sub1");
      ("INSTRUQT_AZURE_SUBSCRIPTION_sub1_SPN_ID", "app");
      ("INSTRUQT_AZURE_SUBSCRIPTION_sub1_SPN_PASSWORD", "secret");
      ("INSTRUQT_AZURE_SUBSCRIPTION_sub1_TENANT_ID", "tenant");
      ("AZURE_SUBSCRIPTION_ID", "subscription") ].

(** All variables set, no resource group yet, every request succeeds and the
    address is assigned at the third poll. *)
Definition world_ok : world := {|
  environ := env_ok;
  clock := λ n, 1700000000 + Z.of_nat n;
  ssh_key_path := "/root/.ssh/id_rsa.pub";
  ssh_key_file := Some "ssh-rsa AAAA";
  ssh_key_opens := true;
  azure_new := λ _ _, true;
  traceback := ["Traceback (most recent call last):"];
  azure_list := λ _, Some [];
  azure_put := λ n _, Some ("/subscriptions/subscription/" +:+ pretty n);
  azure_get := λ n _,
    if decide (n < 20)%nat then Some None else Some (Some "20.1.2.3");
|}.

Definition with_environ (env : gmap string string) (w : world) : world := {|
  environ := env;
  clock := clock w;
  ssh_key_path := ssh_key_path w;
  ssh_key_file := ssh_key_file w;
  ssh_key_opens := ssh_key_opens w;
  azure_new := azure_new w;
  traceback := traceback w;
  azure_list := azure_list w;
  azure_put := azure_put w;
  azure_get := azure_get w;
|}.


(** AZURE_SUBSCRIPTION_ID is unset. *)
Definition world_unset : world :=
  with_environ (delete "AZURE_SUBSCRIPTION_ID" env_ok) world_ok.

(** AZURE_SUBSCRIPTION_ID is set to the empty string. *)
Definition world_empty : world :=
  with_environ (<["AZURE_SUBSCRIPTION_ID" := ""]> env_ok) world_ok.

(** There is no key file. *)
Definition world_no_key : world := {|
  environ := env_ok;
  clock := clock world_ok;
  ssh_key_path := "/root/.ssh/id_rsa.pub";
  ssh_key_file := None;
  ssh_key_opens := true;
  azure_new := azure_new world_ok;
  traceback := traceback world_ok;
  azure_list := azure_list world_ok;
  azure_put := azure_put world_ok;
  azure_get := azure_get world_ok;
|}.

(** The address is never assigned. *)
Definition world_no_ip : world := {|
  environ := env_ok;
  clock := clock world_ok;
  ssh_key_path := "/root/.ssh/id_rsa.pub";
  ssh_key_file := Some "ssh-rsa AAAA";
  ssh_key_opens := true;
  azure_new := azure_new world_ok;
  traceback := traceback world_ok;
  azure_list := azure_list world_ok;
  azure_put := azure_put world_ok;
  azure_get := λ _ _, Some None;
|}.

(** Existing groups are listed. *)
Definition world_existing_rg : world := {|
  environ := env_ok;
  clock := λ n, 1700000000 + Z.of_nat n;
  ssh_key_path := "/root/.ssh/id_rsa.pub";
  ssh_key_file := Some "ssh-rsa AAAA";
  ssh_key_opens := true;
  azure_new := azure_new world_ok;
  traceback := traceback world_ok;
  azure_list := λ _, Some ["shared"; "other"];
  azure_put := λ n _, Some ("/subscriptions/subscription/" +:+ pretty n);
  azure_get := λ n _,
    if decide (n < 20)%nat then Some None else Some (Some "20.1.2.3");
|}.


(** * Reasoning rules *)

Section Rules.
Context {A : Type}.
Implicit Types (st : state) (Q : A + halt → state → Prop).

Lemma wp_run (m : M A) st Q r st' :
  wp m st Q → m st = (r, st') → Q r st'.
Proof. unfold wp. intros H E. now rewrite E in H. Qed.

Lemma wp_mono (m : M A) st Q Q' :
  wp m st Q → (∀ r st', Q r st' → Q' r st') → wp m st Q'.
Proof. unfold wp. auto. Qed.

Lemma wp_ret (a : A) st Q : Q (inl a) st → wp (mret a) st Q.
Proof. exact id. Qed.

Lemma wp_stop h st Q : Q (inr h) st → wp (stop h) st Q.
Proof. exact id. Qed.

Lemma wp_sys_exit code st Q : Q (inr (SysExit code)) st → wp (sys_exit code) st Q.
Proof. exact id. Qed.

Lemma wp_bind {B} (m : M B) (k : B → M A) st Q :
  wp m st (λ r st',
    match r with
    | inl b => wp (k b) st' Q
    | inr h => Q (inr h) st'
    end) →
  wp (m ≫= k) st Q.
Proof.
  unfold wp, mbind, M_bind. now destruct (m st) as [[b|h] st'].
Qed.

Lemma wp_call (oracle : nat → option A) r st Q :
  (∀ a, oracle (requests st) = Some a → Q (inl a) (asked (Call r) st)) →
  (oracle (requests st) = None → Q (inr Uncaught) (asked (Call r) st)) →
  wp (call oracle r) st Q.
Proof.
  unfold wp, call. intros Hok Hfail.
  destruct (oracle (requests st)) as [a|]; simpl; auto.
Qed.
End Rules.

Lemma wp_emit e st (Q : unit + halt → state → Prop) :
  Q (inl tt) (logged e st) → wp (emit e) st Q.
Proof. exact id. Qed.

Lemma wp_construct w class args st (Q : unit + halt → state → Prop) :
  (azure_new w class args = true →
   Q (inl tt) (logged (Construct class args) st)) →
  (azure_new w class args = false → Q (inr Uncaught) st) →
  wp (construct w class args) st Q.
Proof.
  unfold wp, construct. intros Hok Hfail.
  destruct (azure_new w class args); simpl; auto.
Qed.

Lemma wp_time_time w st (Q : Z + halt → state → Prop) :
  Q (inl (clock w (ticks st))) (ticked st) → wp (time_time w) st Q.
Proof. exact id. Qed.

(** * The end of a run *)

Lemma interpreter_other w r st :
  r ≠ inr Uncaught → interpreter w (r, st) = (r, st).
Proof.
  intros H. unfold interpreter. simpl.
  destruct r as [[]|[code| |]]; try reflexivity. now destruct H.
Qed.

Lemma run_main fuel w r st :
  main w fuel initial = (r, st) → r ≠ inr Uncaught → run fuel w = (r, st).
Proof. intros E H. unfold run. rewrite E. now apply interpreter_other. Qed.

Lemma run_fst fuel w : (run fuel w).1 = (main w fuel initial).1.
Proof.
  unfold run, interpreter.
  now destruct (main w fuel initial) as [[[]|[code| |]] st].
Qed.

Lemma run_requests fuel w :
  requests (run fuel w).2 = requests (main w fuel initial).2.
Proof.
  unfold run, interpreter.
  now destruct (main w fuel initial) as [[[]|[code| |]] st].
Qed.

Lemma run_log fuel w :
  log (run fuel w).2 =
    log (main w fuel initial).2 ++
    match (main w fuel initial).1 with
    | inr Uncaught => map Stderr (traceback w)
    | _ => []
    end.
Proof.
  unfold run, interpreter.
  destruct (main w fuel initial) as [[[]|[code| |]] st]; simpl;
    now rewrite ?app_nil_r.
Qed.

Lemma run_inv fuel w r st :
  run fuel w = (r, st) → r ≠ inr Uncaught → main w fuel initial = (r, st).
Proof.
  intros E H. pose proof (run_fst fuel w) as E1. rewrite E in E1. simpl in E1.
  destruct (main w fuel initial) as [r' st'] eqn:M. simpl in E1. subst r'.
  rewrite (run_main _ _ _ _ M H) in E. exact E.
Qed.

(** * The environment *)

Lemma truthy_Some (v : option string) :
  truthy v = true ↔ ∃ s, v = Some s ∧ s ≠ "".
Proof.
  destruct v as [s|]; simpl.
  - destruct (decide (s = "")) as [->|Hs]; split; eauto; try discriminate.
    intros (? & ? & ?); congruence.
  - split; [discriminate | intros (? & ? & ?); discriminate].
Qed.

Lemma get_env_variable_eq w var_name default_ st :
  get_env_variable w var_name true default_ st =
    let value := from_option Some default_ (environ w !! var_name) in
    if truthy value then (inl value, st)
    else (inr (SysExit 1), logged (Stderr (required_msg var_name)) st).
Proof.
  unfold get_env_variable. cbv zeta.
  now destruct (truthy (from_option Some default_ (environ w !! var_name))).
Qed.

Lemma wp_get_env_variable w var_name st Q :
  (∀ s, environ w !! var_name = Some s → s ≠ "" → Q (inl (Some s)) st) →
  (truthy (environ w !! var_name) = false →
   Q (inr (SysExit 1)) (logged (Stderr (required_msg var_name)) st)) →
  wp (get_env_variable w var_name true None) st Q.
Proof.
  intros Hok Hno. unfold wp. rewrite get_env_variable_eq. cbv zeta.
  replace (from_option Some None (environ w !! var_name))
    with (environ w !! var_name) by now destruct (environ w !! var_name).
  destruct (truthy (environ w !! var_name)) eqn:E; simpl; auto.
  apply truthy_Some in E as (s & E & Hs). rewrite E. auto.
Qed.

(** Membership in a list that is written out. *)
Ltac in_list :=
  simpl; rewrite ?elem_of_cons; auto 10.

(** Unfolds the sequencing of a computation down to its first command. *)
Ltac wp_seq :=
  cbv beta match zeta;
  repeat (lazymatch goal with |- wp (_ ≫= _) _ _ => apply wp_bind end;
          cbv beta match zeta).

(** One command of straight-line code. *)
Ltac wp_step :=
  wp_seq;
  lazymatch goal with
  | |- wp (mret _) _ _ => apply wp_ret
  | |- wp (print _) _ _ => apply wp_emit
  | |- wp (eprint _) _ _ => apply wp_emit
  | |- wp (emit _) _ _ => apply wp_emit
  | |- wp (time_sleep _) _ _ => apply wp_emit
  | |- wp (sys_exit _) _ _ => apply wp_sys_exit
  | |- wp (stop _) _ _ => apply wp_stop
  | |- wp (time_time _) _ _ => apply wp_time_time
  end;
  cbv beta match zeta.

(** C9: a required variable whose value is the empty string is treated as
    an unset one.  [get_env_variable] with [required=True] writes the
    message to standard error and exits with status 1 whenever the value it
    looked up is falsy: the variable is set to the empty string, or it is
    unset and the default is falsy. *)
Theorem get_env_variable_falsy_exits w var_name default_ st :
  environ w !! var_name = Some "" ∨
    (environ w !! var_name = None ∧ truthy default_ = false) →
  get_env_variable w var_name true default_ st =
    (inr (SysExit 1),
     {| requests := requests st; ticks := ticks st;
        log := log st ++
          [Stderr ("Error: Environment variable " +:+ var_name +:+
                   " is required.")] |}) ∧
  exit_status (inr (SysExit 1)) ≠ 0.
Proof.
  intros H. split; [|discriminate].
  rewrite get_env_variable_eq. cbv zeta.
  destruct H as [E | [E D]]; rewrite E; simpl; [|rewrite D]; reflexivity.
Qed.

Lemma get_env_variable_falsy_exits_witness :
  get_env_variable world_empty "AZURE_SUBSCRIPTION_ID" true None initial =
    (inr (SysExit 1),
     {| requests := 0; ticks := 0;
        log := [Stderr "Error: Environment variable AZURE_SUBSCRIPTION_ID is required."] |}) ∧
  exit_status (inr (SysExit 1)) ≠ 0.
Proof.
  apply (get_env_variable_falsy_exits world_empty "AZURE_SUBSCRIPTION_ID"
           None initial).
  left. vm_compute. reflexivity.
Defined.

(** C3: when a required variable is absent, the run consists of exactly one
    line on standard error, naming a required variable, and exit status 1:
    no client is constructed and no request is issued. *)
Theorem missing_variable_exits fuel w :
  (∃ name, name ∈ required_variables w ∧ environ w !! name = None) →
  ∃ name, name ∈ required_variables w ∧
    run fuel w =
      (inr (SysExit 1),
       {| requests := 0; ticks := 0;
          log := [Stderr ("Error: Environment variable " +:+ name +:+
                          " is required.")] |}) ∧
    calls (log (run fuel w).2) = [] ∧
    exit_status (run fuel w).1 ≠ 0.
Proof.
  intros (missing & Hin & Hmiss).
  cut (∃ name, name ∈ required_variables w ∧
         run fuel w = (inr (SysExit 1), logged (Stderr (required_msg name)) initial)).
  { intros (name & ? & E). exists name. rewrite E. repeat split; auto. }
  unfold required_variables in *.
  assert (G : wp (main w fuel) initial (λ r st,
    ∃ name, name ∈ required_variables w ∧
      (r, st) = (inr (SysExit 1), logged (Stderr (required_msg name)) initial))).
  2:{ unfold wp in G. destruct G as (name & ? & E). exists name.
      split; [assumption|]. apply run_main; [|discriminate].
      rewrite <- E. now destruct (main w fuel initial). }
  unfold required_variables.
  unfold main, provision, networking, credentials. wp_seq.
  apply wp_get_env_variable; cbv beta match zeta;
    [intros sub Esub _ | intros _; eexists; split; [|reflexivity]; in_list].
  rewrite Esub in *. simpl str. wp_seq.
  apply wp_get_env_variable; cbv beta match zeta;
    [intros v1 E1 _ | intros _; eexists; split; [|reflexivity]; in_list].
  wp_seq.
  apply wp_get_env_variable; cbv beta match zeta;
    [intros v2 E2 _ | intros _; eexists; split; [|reflexivity]; in_list].
  wp_seq.
  apply wp_get_env_variable; cbv beta match zeta;
    [intros v3 E3 _ | intros _; eexists; split; [|reflexivity]; in_list].
  wp_seq.
  apply wp_get_env_variable; cbv beta match zeta;
    [intros v4 E4 _ | intros _; eexists; split; [|reflexivity]; in_list].
  exfalso. simpl in Hin.
  rewrite !elem_of_cons, elem_of_nil in Hin.
  destruct Hin as [->|[->|[->|[->|[->|[]]]]]]; congruence.
Qed.

(** * The polling loop *)

Lemma poll_cond_true ip elapsed :
  poll_cond (ip, elapsed) = true ↔ truthy ip = false ∧ elapsed < 300.
Proof.
  unfold poll_cond, timeout. simpl.
  rewrite andb_true_iff, negb_true_iff, bool_decide_eq_true. tauto.
Qed.

Lemma poll_cond_false ip elapsed :
  poll_cond (ip, elapsed) = false ↔ truthy ip = true ∨ 300 ≤ elapsed.
Proof.
  unfold poll_cond, timeout. simpl.
  rewrite andb_false_iff, negb_false_iff, bool_decide_eq_false.
  split; (intros [?|?]; [now left | right; lia]).
Qed.

Lemma wp_get w r st (Q : option string + halt → state → Prop) :
  (∀ a, azure_get w (requests st) r = Some a → Q (inl a) (asked (Call r) st)) →
  (azure_get w (requests st) r = None → Q (inr Uncaught) (asked (Call r) st)) →
  wp (get w r) st Q.
Proof. intros. now apply wp_call. Qed.

Lemma wp_put w r st (Q : string + halt → state → Prop) :
  (∀ a, azure_put w (requests st) r = Some a → Q (inl a) (asked (Call r) st)) →
  (azure_put w (requests st) r = None → Q (inr Uncaught) (asked (Call r) st)) →
  wp (put w r) st Q.
Proof. intros. now apply wp_call. Qed.

Lemma wp_list w st (Q : list string + halt → state → Prop) :
  (∀ a, azure_list w (requests st) = Some a →
        Q (inl a) (asked (Call resource_groups_list) st)) →
  (azure_list w (requests st) = None →
   Q (inr Uncaught) (asked (Call resource_groups_list) st)) →
  wp (list_ w) st Q.
Proof. intros. now apply wp_call. Qed.

(** The loop started after [j] rounds: it makes [k] more rounds, at most
    [30 - j], and nothing else. *)
Lemma poll_loop_spec w rg_name pubip_name fuel :
  ∀ (j : nat) ip st, (j ≤ 30)%nat →
  wp (while fuel poll_cond (poll_body w rg_name pubip_name)
        (ip, 10 * Z.of_nat j)) st
    (λ r st', ∃ k : nat,
      (j + k ≤ 30)%nat ∧
      log st' = log st ++ mjoin (replicate k (poll_round rg_name pubip_name)) ∧
      requests st' = (requests st + k)%nat ∧
      (truthy ip = true → k = 0%nat) ∧
      (∀ i, (i + 1 < k)%nat → ∃ v,
         azure_get w (requests st + i)
           (public_ip_addresses_get rg_name pubip_name) = Some v ∧
         truthy v = false) ∧
      match r with
      | inl (ip', elapsed) =>
          elapsed = 10 * Z.of_nat (j + k) ∧
          (truthy ip' = true ∨ (j + k)%nat = 30%nat) ∧
          (k = 0%nat → ip' = ip) ∧
          ((0 < k)%nat →
           azure_get w (requests st + k - 1)
             (public_ip_addresses_get rg_name pubip_name) = Some ip')
      | inr h =>
          (h = Uncaught ∧ (0 < k)%nat ∧
           azure_get w (requests st + k - 1)
             (public_ip_addresses_get rg_name pubip_name) = None) ∨
          (h = OutOfFuel ∧ (fuel + j < 30)%nat)
      end).
Proof.
  induction fuel as [|fuel IH]; intros j ip st Hj.
  - unfold wp. simpl while.
    destruct (poll_cond (ip, 10 * Z.of_nat j)) eqn:C.
    + apply poll_cond_true in C as [C1 C2].
      exists 0%nat. simpl. rewrite app_nil_r.
      repeat split; try lia; try congruence. right. split; [done|lia].
    + apply poll_cond_false in C as C.
      exists 0%nat. simpl. rewrite app_nil_r.
      repeat split; try lia; try done.
      destruct C as [C|C]; [now left | right; lia].
  - simpl while.
    destruct (poll_cond (ip, 10 * Z.of_nat j)) eqn:C.
    + apply poll_cond_true in C as [C1 C2].
      unfold poll_body, time_sleep. wp_seq. apply wp_emit. wp_seq.
      apply wp_get; cbv beta match zeta.
      * intros v Hv. wp_seq. apply wp_ret. cbv beta match zeta.
        simpl fst; simpl snd.
        replace (10 * Z.of_nat j + interval) with (10 * Z.of_nat (S j))
          by (unfold interval; lia).
        eapply wp_mono; [apply IH; lia|].
        intros r st' (k & Hk & Hlog & Hreq & Hfirst & Hmid & Hr).
        exists (S k). simpl in Hlog, Hreq.
        split; [lia|]. split.
        { rewrite Hlog. simpl. unfold interval.
          rewrite <- !app_assoc. reflexivity. }
        split; [lia|]. split; [congruence|]. split.
        { intros [|i] Hi.
          - exists v. rewrite Nat.add_0_r. split; [done|].
            destruct (truthy v) eqn:T; [|done].
            specialize (Hfirst eq_refl). lia.
          - destruct (Hmid i) as (v' & Hv' & Tv'); [lia|].
            exists v'. split; [|done].
            replace (requests st + S i)%nat with (S (requests st) + i)%nat
              by lia. done. }
        destruct r as [[ip' elapsed]|h].
        -- destruct Hr as (He & Hend & H0 & Hlast).
           split; [rewrite He; f_equal; lia|].
           split; [destruct Hend; [now left | right; lia]|].
           split; [lia|]. intros _.
           destruct k as [|k].
           ++ rewrite (H0 eq_refl).
              replace (requests st + 1 - 1)%nat with (requests st) by lia.
              done.
           ++ replace (requests st + S (S k) - 1)%nat
                with (S (requests st) + S k - 1)%nat by lia.
              apply Hlast. lia.
        -- destruct Hr as [(-> & Hpos & Hlast) | (-> & Hf)].
           ++ left. split; [done|]. split; [lia|].
              replace (requests st + S k - 1)%nat
                with (S (requests st) + k - 1)%nat by lia. done.
           ++ right. split; [done|lia].
      * intros Hv. exists 1%nat. simpl. unfold interval.
        rewrite <- !app_assoc. simpl.
        split; [lia|]. split; [done|]. split; [lia|].
        split; [congruence|]. split; [intros i Hi; lia|].
        left. split; [done|]. split; [lia|].
        replace (requests st + 1 - 1)%nat with (requests st) by lia. done.
    + apply poll_cond_false in C as C.
      exists 0%nat. unfold wp. simpl. rewrite app_nil_r.
      repeat split; try lia; try done.
      destruct C as [C|C]; [now left | right; lia].
Qed.

(** * Requests and files of a log *)

Lemma calls_app l1 l2 : calls (l1 ++ l2) = calls l1 ++ calls l2.
Proof.
  induction l1 as [|[] l1 IH]; simpl; congruence.
Qed.

Lemma writes_app l1 l2 : writes (l1 ++ l2) = writes l1 ++ writes l2.
Proof.
  induction l1 as [|[] l1 IH]; simpl; congruence.
Qed.

Lemma calls_traceback l : calls (map Stderr l) = [].
Proof. induction l as [|x l IH]; [reflexivity | exact IH]. Qed.

Lemma writes_traceback l : writes (map Stderr l) = [].
Proof. induction l as [|x l IH]; [reflexivity | exact IH]. Qed.

Lemma run_calls fuel w :
  calls (log (run fuel w).2) = calls (log (main w fuel initial).2).
Proof.
  rewrite run_log, calls_app.
  destruct (main w fuel initial).1 as [[]|[code| |]];
    now rewrite ?calls_traceback, app_nil_r.
Qed.

Lemma run_writes fuel w :
  writes (log (run fuel w).2) = writes (log (main w fuel initial).2).
Proof.
  rewrite run_log, writes_app.
  destruct (main w fuel initial).1 as [[]|[code| |]];
    now rewrite ?writes_traceback, app_nil_r.
Qed.

Lemma calls_poll_rounds rg_name pubip_name k :
  calls (mjoin (replicate k (poll_round rg_name pubip_name))) =
    replicate k (public_ip_addresses_get rg_name pubip_name).
Proof.
  induction k as [|k IH]; simpl; congruence.
Qed.

Lemma writes_poll_rounds rg_name pubip_name k :
  writes (mjoin (replicate k (poll_round rg_name pubip_name))) = [].
Proof.
  induction k as [|k IH]; simpl; congruence.
Qed.

Lemma issued_refl st : issued st st [].
Proof. split; [now rewrite app_nil_r | done]. Qed.

Lemma issued_logged e st st' rs :
  calls [e] = [] → writes [e] = [] →
  issued st st' rs → issued st (logged e st') rs.
Proof.
  intros Hc Hw [H1 H2]. split; simpl.
  - now rewrite calls_app, Hc, app_nil_r.
  - now rewrite writes_app, Hw, app_nil_r.
Qed.

Lemma issued_asked r st st' rs :
  issued st st' rs → issued st (asked (Call r) st') (rs ++ [r]).
Proof.
  intros [H1 H2]. split; simpl.
  - now rewrite calls_app, H1, app_assoc.
  - now rewrite writes_app, H2, app_nil_r.
Qed.

Lemma issued_ticked st st' rs : issued st st' rs → issued st (ticked st') rs.
Proof. exact id. Qed.

Lemma issued_trans st st' st'' rs rs' :
  issued st st' rs → issued st' st'' rs' → issued st st'' (rs ++ rs').
Proof.
  intros [H1 H2] [H3 H4]. split.
  - now rewrite H3, H1, app_assoc.
  - congruence.
Qed.

Lemma issued_eq st st' rs rs' :
  issued st st' rs → rs = rs' → issued st st' rs'.
Proof. now intros H <-. Qed.

(** Collects the requests issued between two states of a proof. *)
Ltac issued_tac :=
  repeat lazymatch goal with
  | |- issued ?a ?a _ => apply issued_refl
  | |- issued _ (asked (Call _) _) _ => eapply issued_asked
  | |- issued _ (ticked _) _ => eapply issued_ticked
  | |- issued _ (logged _ _) _ => eapply issued_logged; [reflexivity|reflexivity|]
  | H : issued _ ?st _ |- issued _ ?st _ => eapply issued_trans; [|exact H]
  end.

Tactic Notation "wp_put_step" ident(a) ident(H) :=
  wp_seq; apply wp_put; cbv beta match zeta; [intros a H | intros H].

(** * The sections of the script *)

Lemma determine_resource_group_spec w location st :
  wp (determine_resource_group w location) st (λ r st', ∃ rs,
    issued st st' rs ∧
    match r with
    | inl rg_name => rs ∈ rg_steps rg_name location
    | inr h =>
        h = Uncaught ∧
        ∃ rg_name,
          rs `prefix_of`
            [resource_groups_list;
             resource_groups_create_or_update rg_name location]
    end ∧
    ∀ rg_name l, resource_groups_create_or_update rg_name l ∈ rs →
      truthy (environ w !! "AZURE_RESOURCE_GROUP") = false ∧
      azure_list w (requests st) = Some [] ∧
      rs = [resource_groups_list; resource_groups_create_or_update rg_name l] ∧
      rg_name = "ArmResourceGroup-" +:+ pretty (clock w (ticks st))).
Proof.
  unfold determine_resource_group. cbv zeta.
  destruct (truthy (environ w !! "AZURE_RESOURCE_GROUP")) eqn:T.
  - do 2 wp_step. eexists; split; [issued_tac|]. split.
    + unfold rg_steps. in_list.
    + intros rg l H. apply elem_of_nil in H as [].
  - wp_seq. apply wp_list; cbv beta match zeta.
    + intros [|rg0 rgs] Hl.
      * do 2 wp_step. wp_put_step rid Hput.
        -- wp_step. eexists; split; [issued_tac|]. simpl. split.
           ++ unfold rg_steps. in_list.
           ++ intros rg l H. rewrite !elem_of_cons, elem_of_nil in H.
              destruct H as [H|[H|[]]]; [discriminate|].
              injection H as -> ->. auto.
        -- eexists; split; [issued_tac|]. simpl. split.
           ++ split; [done|]. eexists. reflexivity.
           ++ intros rg l H. rewrite !elem_of_cons, elem_of_nil in H.
              destruct H as [H|[H|[]]]; [discriminate|].
              injection H as -> ->. auto.
      * do 2 wp_step. eexists; split; [issued_tac|]. simpl. split.
        -- unfold rg_steps. in_list.
        -- intros rg l H. rewrite !elem_of_cons, elem_of_nil in H.
           destruct H as [H|[]]. discriminate.
    + intros Hl. eexists; split; [issued_tac|]. simpl. split.
      * split; [done|]. exists "". apply prefix_cons, prefix_nil.
      * intros rg l H. rewrite !elem_of_cons, elem_of_nil in H.
        destruct H as [H|[]]. discriminate.
Qed.

Lemma prioritised_ports : prioritised ports 1000 = fixed_rules.
Proof. reflexivity. Qed.

Lemma create_rule_spec w rg_name nsg_name port priority st :
  wp (create_rule w rg_name nsg_name port priority) st (λ r st',
    issued st st' [inbound_rule rg_name nsg_name (port, priority)] ∧
    match r with
    | inl priority' => priority' = priority + 10
    | inr h => h = Uncaught
    end).
Proof.
  unfold create_rule. wp_step. wp_put_step rid Hput.
  - wp_step. split; [eapply issued_eq; [issued_tac | reflexivity] | done].
  - split; [eapply issued_eq; [issued_tac | reflexivity] | done].
Qed.

(** The loop over the ports, from any port list and priority. *)
Lemma rules_loop_spec w rg_name nsg_name ps :
  ∀ priority st,
  wp (for_ ps (create_rule w rg_name nsg_name) priority) st (λ r st', ∃ rs,
    issued st st' rs ∧
    match r with
    | inl _ =>
        rs = map (inbound_rule rg_name nsg_name) (prioritised ps priority)
    | inr h =>
        h = Uncaught ∧
        rs `prefix_of`
          map (inbound_rule rg_name nsg_name) (prioritised ps priority)
    end).
Proof.
  induction ps as [|port ps IH]; intros priority st; simpl for_.
  - wp_step. exists []. split; [apply issued_refl | reflexivity].
  - wp_seq. eapply wp_mono; [apply create_rule_spec|].
    intros [priority'|h] st1 [H1 Hr].
    + subst priority'. eapply wp_mono; [apply IH|].
      intros r st' (rs & Hrs & Hr).
      eexists; split; [issued_tac|]. simpl.
      destruct r as [?|h].
      * now rewrite Hr.
      * destruct Hr as [-> Hr]. split; [done|]. now apply prefix_cons.
    + subst h. eexists; split; [issued_tac|]. simpl. split; [done|].
      apply prefix_cons, prefix_nil.
Qed.

Lemma create_nsg_spec w rg_name location st :
  wp (create_nsg w rg_name location) st (λ r st', ∃ nsg_name rs,
    issued st st' rs ∧
    let plan :=
      network_security_groups_begin_create_or_update
        rg_name nsg_name location ::
      map (inbound_rule rg_name nsg_name) fixed_rules in
    match r with
    | inl _ => rs = plan
    | inr h => h = Uncaught ∧ rs `prefix_of` plan
    end).
Proof.
  unfold create_nsg. do 2 wp_step. wp_put_step nsg_id Hput.
  - wp_seq. eapply wp_mono; [apply rules_loop_spec|].
    intros r st' (rs & Hrs & Hr). rewrite prioritised_ports in Hr.
    destruct r as [?|h].
    + wp_step. eexists _, _; split; [issued_tac|]. cbv zeta.
      simpl. now rewrite Hr.
    + destruct Hr as [-> Hr].
      eexists _, _; split; [issued_tac|]. cbv zeta.
      split; [done|]. simpl. now apply prefix_cons.
  - eexists _, _; split; [issued_tac|]. cbv zeta. split; [done|].
    apply prefix_cons, prefix_nil.
Qed.

(** Closes a goal [rs `prefix_of` plan] where [rs] is written out. *)
Ltac prefix_tac :=
  simpl; repeat apply prefix_cons; first [apply prefix_nil | reflexivity].

Lemma create_networking_spec w rg_name location st :
  wp (create_networking w rg_name location) st (λ r st', ∃ d rs,
    d_rg d = rg_name ∧ d_location d = location ∧
    issued st st' rs ∧
    match r with
    | inl (pubip_name, nic_id) =>
        pubip_name = d_pubip d ∧ nic_id = d_nic_id d ∧
        rs = network_requests d
    | inr h => h = Uncaught ∧ rs `prefix_of` network_requests d
    end).
Proof.
  unfold create_networking, create_network. wp_step.
  wp_put_step vnet_id Hvnet; cycle 1.
  { eexists (Build_deployment rg_name location _ _ _ _ _ _ _ _ _), _.
    do 2 (split; [reflexivity|]). split; [issued_tac|].
    split; [done|]. prefix_tac. }
  wp_put_step subnet_id Hsubnet; cycle 1.
  { eexists (Build_deployment rg_name location _ _ _ _ _ _ _ _ _), _.
    do 2 (split; [reflexivity|]). split; [issued_tac|].
    split; [done|]. prefix_tac. }
  wp_step. wp_seq. eapply wp_mono; [apply create_nsg_spec|].
  intros [nsg_id|h] st1 (nsg_name & rs1 & H1 & Hr); cbv zeta in Hr; cycle 1.
  { destruct Hr as [-> Hr].
    eexists (Build_deployment rg_name location nsg_name _ _ _ _ _ _ _ _), _.
    do 2 (split; [reflexivity|]). split; [issued_tac|].
    split; [done|]. simpl. do 2 apply prefix_cons.
    exact (prefix_app_r _ _ _ Hr). }
  subst rs1. unfold create_public_ip. do 2 wp_step.
  wp_put_step pubip_id Hpubip; cycle 1.
  { eexists (Build_deployment rg_name location nsg_name _ _ _ _ _ _ _ _), _.
    do 2 (split; [reflexivity|]). split; [issued_tac|].
    split; [done|]. prefix_tac. }
  wp_step. unfold create_nic. do 2 wp_step.
  wp_put_step nic_id Hnic; cycle 1.
  { eexists (Build_deployment rg_name location nsg_name _ _ _
               subnet_id nsg_id pubip_id _ _), _.
    do 2 (split; [reflexivity|]). split; [issued_tac|].
    split; [done|]. prefix_tac. }
  wp_step.
  eexists (Build_deployment rg_name location nsg_name _ _ _
             subnet_id nsg_id pubip_id nic_id _), _.
  do 2 (split; [reflexivity|]). split; [issued_tac|].
  split; [reflexivity|]. split; [reflexivity|]. reflexivity.
  Unshelve. all: exact "".
Qed.

Ltac issued_solve :=
  eapply issued_eq; [issued_tac | simpl; rewrite ?app_nil_r; reflexivity].

(** The script up to the network interface, from a fresh process. *)
Lemma networking_spec w :
  wp (networking w) initial (λ r st, ∃ d rg_rs net_rs,
    issued initial st (rg_rs ++ net_rs) ∧
    (∀ rg_name l, resource_groups_create_or_update rg_name l ∈ rg_rs →
       truthy (environ w !! "AZURE_RESOURCE_GROUP") = false ∧
       azure_list w 0 = Some [] ∧
       rg_rs = [resource_groups_list;
                resource_groups_create_or_update rg_name l] ∧
       rg_name = "ArmResourceGroup-" +:+ pretty (clock w 0)) ∧
    match r with
    | inl (rg_name, location, pubip_name, nic_id) =>
        rg_name = d_rg d ∧ location = d_location d ∧
        pubip_name = d_pubip d ∧ nic_id = d_nic_id d ∧
        rg_rs ∈ rg_steps (d_rg d) (d_location d) ∧
        net_rs = network_requests d
    | inr h =>
        (h = Uncaught ∨ h = SysExit 1) ∧
        net_rs `prefix_of` network_requests d ∧
        ∃ rgp, rgp ∈ rg_steps (d_rg d) (d_location d) ∧
          rg_rs `prefix_of` rgp ∧ (net_rs ≠ [] → rg_rs = rgp)
    end).
Proof.
  pose (d0 := Build_deployment "" "" "" "" "" "" "" "" "" "" "").
  assert (Hnone : ∀ rg_name l,
    resource_groups_create_or_update rg_name l ∈ @nil request →
    truthy (environ w !! "AZURE_RESOURCE_GROUP") = false ∧
    azure_list w 0 = Some [] ∧
    [] = [resource_groups_list; resource_groups_create_or_update rg_name l] ∧
    rg_name = "ArmResourceGroup-" +:+ pretty (clock w 0)).
  { intros ? ? H. apply elem_of_nil in H as []. }
  assert (Hexit : ∀ st h, issued initial st [] →
    h = Uncaught ∨ h = SysExit 1 →
    ∃ d (rg_rs net_rs : list request),
      issued initial st (rg_rs ++ net_rs) ∧
      (∀ rg_name l, resource_groups_create_or_update rg_name l ∈ rg_rs →
         truthy (environ w !! "AZURE_RESOURCE_GROUP") = false ∧
         azure_list w 0 = Some [] ∧
         rg_rs = [resource_groups_list;
                  resource_groups_create_or_update rg_name l] ∧
         rg_name = "ArmResourceGroup-" +:+ pretty (clock w 0)) ∧
      (h = Uncaught ∨ h = SysExit 1) ∧
      net_rs `prefix_of` network_requests d ∧
      ∃ rgp, rgp ∈ rg_steps (d_rg d) (d_location d) ∧
        rg_rs `prefix_of` rgp ∧ (net_rs ≠ [] → rg_rs = rgp)).
  { intros st h Hst Hh. exists d0, [], []. split; [exact Hst|].
    split; [exact Hnone|]. split; [exact Hh|].
    split; [apply prefix_nil|].
    exists []. split; [unfold rg_steps; in_list|]. split; done. }
  unfold networking, credentials. wp_seq.
  apply wp_get_env_variable; cbv beta match zeta;
    [intros sub Esub _ | intros _; apply Hexit; [issued_solve | auto]].
  wp_seq.
  apply wp_get_env_variable; cbv beta match zeta;
    [intros v1 E1 _ | intros _; apply Hexit; [issued_solve | auto]].
  wp_seq.
  apply wp_get_env_variable; cbv beta match zeta;
    [intros v2 E2 _ | intros _; apply Hexit; [issued_solve | auto]].
  wp_seq.
  apply wp_get_env_variable; cbv beta match zeta;
    [intros v3 E3 _ | intros _; apply Hexit; [issued_solve | auto]].
  wp_seq.
  apply wp_get_env_variable; cbv beta match zeta;
    [intros v4 E4 _ | intros _; apply Hexit; [issued_solve | auto]].
  do 2 wp_step. unfold clients.
  do 4 (wp_seq; apply wp_construct; cbv beta match zeta;
        [intros _ | intros _; apply Hexit; [issued_solve | auto]]).
  wp_seq. clear Hexit.
  set (location := default "eastus" (environ w !! "AZURE_LOCATION")).
  wp_seq. eapply wp_mono; [apply determine_resource_group_spec|].
  intros [rg_name|h] st1 (rg_rs & Hrg & Hr & Hcreate);
    simpl requests in Hcreate; simpl ticks in Hcreate; cycle 1.
  { destruct Hr as [-> [rg_name Hr]].
    exists (Build_deployment rg_name location "" "" "" "" "" "" "" "" "").
    exists rg_rs, []. split; [issued_solve|]. split; [exact Hcreate|].
    split; [now left|]. split; [apply prefix_nil|].
    eexists. split; [unfold rg_steps; in_list|].
    split; [exact Hr | done]. }
  wp_seq. eapply wp_mono; [apply create_networking_spec|].
  intros [[pubip_name nic_id]|h] st2 (d & net_rs & Hd1 & Hd2 & Hnet & Hr2).
  - destruct Hr2 as (-> & -> & ->). wp_step.
    exists d, rg_rs, (network_requests d).
    split; [issued_solve|]. split; [exact Hcreate|].
    rewrite Hd1, Hd2. repeat split; done.
  - destruct Hr2 as [-> Hr2].
    exists d, rg_rs, net_rs.
    split; [issued_solve|]. split; [exact Hcreate|].
    split; [now left|]. split; [exact Hr2|].
    exists rg_rs. rewrite Hd1, Hd2. repeat split; done.
Qed.

Lemma issued_rounds rg_name pubip_name k st st' :
  log st' = log st ++ mjoin (replicate k (poll_round rg_name pubip_name)) →
  issued st st' (replicate k (public_ip_addresses_get rg_name pubip_name)).
Proof.
  intros H. split; rewrite H.
  - now rewrite calls_app, calls_poll_rounds.
  - now rewrite writes_app, writes_poll_rounds, app_nil_r.
Qed.

(** The virtual machine and the polling, for the network of deployment
    [d0]. *)
Lemma deploy_vm_spec w fuel d0 st :
  wp (deploy_vm w fuel (d_rg d0) (d_location d0) (d_pubip d0) (d_nic_id d0)) st
    (λ r st', ∃ d (n : nat) rs,
      network_requests d = network_requests d0 ∧
      d_rg d = d_rg d0 ∧ d_location d = d_location d0 ∧
      (n ≤ 31)%nat ∧ issued st st' rs ∧
      match r with
      | inl (vm_name, public_ip) =>
          vm_name = d_vm d ∧ (1 ≤ n)%nat ∧
          rs = vm_request d :: replicate n (poll_request d) ∧
          azure_get w (requests st' - 1) (poll_request d) = Some public_ip ∧
          (truthy public_ip = true ∨ n = 31%nat)
      | inr h =>
          (h = Uncaught ∨ h = SysExit 1 ∨
           (h = OutOfFuel ∧ (fuel < 30)%nat)) ∧
          rs `prefix_of` vm_request d :: replicate n (poll_request d)
      end).
Proof.
  unfold deploy_vm, create_vm. do 2 wp_step. wp_seq.
  set (vm_name := "ArmVM-" +:+ d_rg d0 +:+ "-" +:+ pretty (clock w (ticks st))).
  pose (d := λ key, Build_deployment (d_rg d0) (d_location d0) (d_nsg d0)
                      (d_pubip d0) (d_nic d0) vm_name (d_subnet_id d0)
                      (d_nsg_id d0) (d_pubip_id d0) (d_nic_id d0) key).
  destruct (ssh_key_file w) as [key|] eqn:Hkey.
  2:{ do 2 wp_step. exists (d ""), 0%nat, [].
      do 3 (split; [reflexivity|]). split; [lia|].
      split; [issued_solve|]. split; [auto | apply prefix_nil]. }
  destruct (ssh_key_opens w) eqn:Hopen.
  2:{ wp_step. exists (d key), 0%nat, [].
      do 3 (split; [reflexivity|]). split; [lia|].
      split; [issued_solve|]. split; [auto | apply prefix_nil]. }
  wp_step. wp_put_step vm_id Hvm.
  2:{ exists (d key), 0%nat. eexists.
      do 3 (split; [reflexivity|]). split; [lia|].
      split; [issued_tac|]. split; [auto | prefix_tac]. }
  wp_step. unfold retrieve_public_ip. wp_seq.
  apply wp_get; cbv beta match zeta.
  2:{ intros Hget. exists (d key), 1%nat. eexists.
      do 3 (split; [reflexivity|]). split; [lia|].
      split; [issued_tac|]. split; [auto | prefix_tac]. }
  intros ip0 Hget. wp_seq.
  eapply wp_mono;
    [exact (poll_loop_spec w (d_rg d0) (d_pubip d0) fuel 0%nat ip0 _
              ltac:(lia))|].
  intros r st1 (k & Hk & Hlog & Hreq & Hfirst & Hmid & Hr).
  apply issued_rounds in Hlog as Hrounds.
  destruct r as [[ip elapsed]|h].
  2:{ exists (d key), (S k). eexists.
      do 3 (split; [reflexivity|]). split; [lia|].
      split; [issued_tac|]. split.
      { destruct Hr as [(-> & _) | (-> & Hf)]; [auto|].
        right; right. split; [done|lia]. }
      simpl. reflexivity. }
  destruct Hr as (_ & Hend & H0 & Hlast).
  assert (Hip : azure_get w (requests st1 - 1)
                  (public_ip_addresses_get (d_rg d0) (d_pubip d0)) = Some ip).
  { destruct k as [|k].
    - rewrite (H0 eq_refl), Hreq. simpl requests.
      rewrite <- Hget. f_equal. simpl. lia.
    - rewrite Hreq. apply Hlast. lia. }
  do 2 wp_step. simpl fst.
  exists (d key), (S k). eexists.
  do 3 (split; [reflexivity|]). split; [lia|].
  split; [issued_tac|].
  split; [reflexivity|]. split; [lia|]. split; [reflexivity|].
  split; [exact Hip|].
  destruct Hend as [?|Hend]; [now left | right; simpl in Hend; lia].
Qed.

(** * The shape of a run *)

Lemma network_requests_no_rg_create d r :
  r ∈ network_requests d → is_rg_create r = false.
Proof.
  unfold network_requests, rule_requests, fixed_rules. simpl. intros H.
  repeat (apply elem_of_cons in H as [->|H]; [reflexivity|]).
  apply elem_of_nil in H as [].
Qed.

Lemma vm_requests_no_rg_create d n r :
  r ∈ vm_request d :: replicate n (poll_request d) → is_rg_create r = false.
Proof.
  intros H. apply elem_of_cons in H as [->|H]; [reflexivity|].
  apply elem_of_replicate in H as [-> _]. reflexivity.
Qed.

Lemma prefix_elem_of {A} (l1 l2 : list A) x :
  l1 `prefix_of` l2 → x ∈ l1 → x ∈ l2.
Proof. intros [k ->] H. apply elem_of_app. now left. Qed.

(** The script before the summary, from a fresh process. *)
Lemma provision_spec fuel w :
  wp (provision w fuel) initial (λ r st, ∃ d rgp (n : nat),
    rgp ∈ rg_steps (d_rg d) (d_location d) ∧ (n ≤ 31)%nat ∧
    (∀ rg_name l,
       resource_groups_create_or_update rg_name l ∈ calls (log st) →
       truthy (environ w !! "AZURE_RESOURCE_GROUP") = false ∧
       azure_list w 0 = Some [] ∧
       (∃ rest, calls (log st) =
          resource_groups_list ::
          resource_groups_create_or_update rg_name l :: rest) ∧
       rg_name = "ArmResourceGroup-" +:+ pretty (clock w 0)) ∧
    writes (log st) = [] ∧
    match r with
    | inl (rg_name, vm_name, location, public_ip) =>
        rg_name = d_rg d ∧ vm_name = d_vm d ∧ location = d_location d ∧
        (1 ≤ n)%nat ∧
        calls (log st) = all_requests d rgp n ∧
        azure_get w (requests st - 1) (poll_request d) = Some public_ip ∧
        (truthy public_ip = true ∨ n = 31%nat)
    | inr h =>
        (h = Uncaught ∨ h = SysExit 1 ∨ (h = OutOfFuel ∧ (fuel < 30)%nat)) ∧
        calls (log st) `prefix_of` all_requests d rgp n
    end).
Proof.
  unfold provision. wp_seq. eapply wp_mono; [apply networking_spec|].
  intros r st (d0 & rg_rs & net_rs & [Hc Hw] & Hcreate & Hr).
  simpl in Hc, Hw.
  assert (Hfacts : ∀ rest,
    (∀ x, x ∈ net_rs ++ rest → is_rg_create x = false) →
    ∀ rg_name l,
      resource_groups_create_or_update rg_name l ∈ rg_rs ++ net_rs ++ rest →
      truthy (environ w !! "AZURE_RESOURCE_GROUP") = false ∧
      azure_list w 0 = Some [] ∧
      (∃ rest', rg_rs ++ net_rs ++ rest =
         resource_groups_list ::
         resource_groups_create_or_update rg_name l :: rest') ∧
      rg_name = "ArmResourceGroup-" +:+ pretty (clock w 0)).
  { intros rest Hrest rg_name l H. apply elem_of_app in H as [H|H].
    - destruct (Hcreate _ _ H) as (? & ? & -> & ?). eauto 10.
    - apply Hrest in H. discriminate. }
  destruct r as [[[[rg_name location] pubip_name] nic_id]|h].
  - destruct Hr as (-> & -> & -> & -> & Hrgp & ->).
    wp_seq. eapply wp_mono; [apply deploy_vm_spec|].
    intros r st' (d & n & rs & Hnet & Hd1 & Hd2 & Hn & [Hcs Hws] & Hr).
    assert (Hcalls : calls (log st') = rg_rs ++ network_requests d0 ++ rs).
    { rewrite Hcs, Hc. now rewrite <- app_assoc. }
    destruct r as [[vm_name public_ip]|h].
    + destruct Hr as (-> & Hn1 & -> & Hget & Hend). wp_step.
      exists d, rg_rs, n. rewrite Hd1, Hd2. split; [exact Hrgp|].
      split; [exact Hn|]. split.
      { rewrite Hcalls. apply Hfacts.
        intros x Hx. apply elem_of_app in Hx as [Hx|Hx].
        - eapply network_requests_no_rg_create, Hx.
        - eapply vm_requests_no_rg_create, Hx. }
      split; [congruence|]. repeat split; try done.
      rewrite Hcalls. unfold all_requests. now rewrite Hnet.
    + destruct Hr as (Hh & Hrs).
      exists d, rg_rs, n. rewrite Hd1, Hd2. split; [exact Hrgp|].
      split; [exact Hn|]. split.
      { rewrite Hcalls. apply Hfacts.
        intros x Hx. apply elem_of_app in Hx as [Hx|Hx].
        - eapply network_requests_no_rg_create, Hx.
        - eapply vm_requests_no_rg_create, prefix_elem_of, Hx. exact Hrs. }
      split; [congruence|]. split; [exact Hh|].
      rewrite Hcalls. unfold all_requests. rewrite Hnet.
      now do 2 apply prefix_app.
  - destruct Hr as (Hh & Hnet & rgp & Hrgp & Hpre & Hfull).
    exists d0, rgp, 0%nat. split; [exact Hrgp|]. split; [lia|].
    rewrite Hc, Hw. simpl. split.
    { specialize (Hfacts []). rewrite !app_nil_r in Hfacts. apply Hfacts.
      intros x Hx. eapply network_requests_no_rg_create, prefix_elem_of, Hx.
      exact Hnet. }
    split; [done|]. split; [destruct Hh; auto|].
    unfold all_requests. destruct net_rs as [|x net_rs].
    + rewrite app_nil_r. now apply prefix_app_r.
    + rewrite (Hfull ltac:(discriminate)).
      apply prefix_app. now apply prefix_app_r.
Qed.

(** The summary section when the address is missing. *)
Lemma report_timeout rg_name vm_name location public_ip st :
  truthy public_ip = false →
  report rg_name vm_name location public_ip st =
    (inr (SysExit 1),
     logged (Stderr "Error: Timed out waiting for public IP assignment.") st).
Proof. intros T. unfold report. rewrite T. reflexivity. Qed.

(** The summary section when the address is there: standard output, then
    the file, then one more line. *)
Lemma report_written rg_name vm_name location ip st :
  ip ≠ "" →
  ∃ out st',
    report rg_name vm_name location (Some ip) st = (inl tt, st') ∧
    requests st' = requests st ∧
    log st' =
      log st ++ out ++
        [WriteFile "/tmp/azure-instance-info.txt"
           (info rg_name vm_name location ip ("ssh azureuser@" +:+ ip));
         Stdout "Instance info saved to /tmp/azure-instance-info.txt."] ∧
    calls out = [] ∧ writes out = [].
Proof.
  intros Hip.
  assert (T : truthy (Some ip) = true).
  { apply truthy_Some. eauto. }
  assert (G : wp (report rg_name vm_name location (Some ip)) st (λ r st',
    ∃ out,
      r = inl tt ∧
      requests st' = requests st ∧
      log st' =
        log st ++ out ++
          [WriteFile "/tmp/azure-instance-info.txt"
             (info rg_name vm_name location ip ("ssh azureuser@" +:+ ip));
           Stdout "Instance info saved to /tmp/azure-instance-info.txt."] ∧
      calls out = [] ∧ writes out = [])).
  { unfold report. rewrite T. simpl negb. do 13 wp_step.
    eexists [_; _; _; _; _; _; _; _; _; _].
    split; [reflexivity|]. split; [reflexivity|]. split.
    - cbn [log logged]. rewrite <- !app_assoc. reflexivity.
    - split; reflexivity. }
  unfold wp in G. destruct G as (out & E & Hout). exists out.
  destruct (report _ _ _ _ _) as [r st']. simpl in E, Hout. subst r.
  exists st'. split; [reflexivity | exact Hout].
Qed.

(** Every run: the requests are an initial part of one fixed sequence, the
    whole of it when the run succeeds, and the summary is written last. *)
Lemma run_shape fuel w : wp (main w fuel) initial (shaped w fuel).
Proof.
  unfold main, shaped. wp_seq. eapply wp_mono; [apply provision_spec|].
  intros r st (d & rgp & n & Hrgp & Hn & Hfacts & Hw & Hr).
  destruct r as [[[[rg_name vm_name] location] public_ip]|h];
    cbv beta match zeta.
  - destruct Hr as (-> & -> & -> & Hn1 & Hcalls & Hget & Hend).
    exists d, rgp, n. split; [exact Hrgp|]. split; [exact Hn|].
    destruct (truthy public_ip) eqn:T.
    + apply truthy_Some in T as (ip & -> & Hip).
      destruct (report_written (d_rg d) (d_vm d) (d_location d) ip st Hip)
        as (out & st' & E & Hreq & Hlog & Hco & Hwo).
      unfold wp. rewrite E. cbn [fst snd].
      assert (Hc' : calls (log st') = calls (log st)).
      { rewrite Hlog, !calls_app, Hco. simpl. now rewrite app_nil_r. }
      split; [now rewrite Hc'|]. split; [exact Hn1|].
      exists ip, (log st ++ out). rewrite Hreq.
      split; [exact Hip|]. split; [exact Hget|].
      split; [rewrite Hlog; now rewrite app_assoc|].
      split.
      * now rewrite calls_app, Hco, app_nil_r.
      * now rewrite writes_app, Hwo, Hw.
    + unfold wp. rewrite (report_timeout _ _ _ _ _ T). cbn [fst snd].
      assert (Hc' : calls (log (logged
        (Stderr "Error: Timed out waiting for public IP assignment.") st)) =
        calls (log st)).
      { simpl. rewrite calls_app. simpl. now rewrite app_nil_r. }
      split; [now rewrite Hc'|]. split; [auto|]. split.
      * rewrite Hc', Hcalls. reflexivity.
      * simpl. rewrite writes_app, Hw. reflexivity.
  - exists d, rgp, n. destruct Hr as [Hh Hpre].
    split; [exact Hrgp|]. split; [exact Hn|]. split; [exact Hfacts|].
    split; [exact Hh|]. split; [exact Hpre | exact Hw].
Qed.

(** * The statements about whole runs *)

Lemma run_wp fuel w (Q : unit + halt → state → Prop) :
  wp (main w fuel) initial (λ r st,
    match r with
    | inr Uncaught =>
        Q r {| requests := requests st; ticks := ticks st;
               log := log st ++ map Stderr (traceback w) |}
    | _ => Q r st
    end) →
  Q (run fuel w).1 (run fuel w).2.
Proof.
  unfold wp, run, interpreter.
  now destruct (main w fuel initial) as [[[]|[code| |]] st].
Qed.

(** The traceback changes nothing of the shape of a run. *)
Lemma run_shaped fuel w : shaped w fuel (run fuel w).1 (run fuel w).2.
Proof.
  apply run_wp. eapply wp_mono; [apply run_shape|].
  intros [[]|[code| |]] st H; try exact H.
  destruct H as (d & rgp & n & Hrgp & Hn & Hfacts & Hh & Hpre & Hw).
  exists d, rgp, n. cbn [log].
  rewrite calls_app, writes_app, calls_traceback, writes_traceback,
    !app_nil_r.
  auto 10.
Qed.

Lemma all_requests_eq d rgp n :
  all_requests d rgp n =
    rgp ++ [vnet_request d; subnet_request d; nsg_request d] ++
    rule_requests d ++
    [pubip_request d; nic_request d; vm_request d] ++
    replicate n (poll_request d).
Proof.
  unfold all_requests, network_requests.
  rewrite <- !app_assoc. reflexivity.
Qed.

(** C1: in a run that completes, the requests are issued in one fixed order:
    the resource-group step (nothing, a listing, or a listing and a
    creation), the virtual network, the subnet, the security group, its
    rules, the public IP, the network interface, the virtual machine, then
    between 1 and 31 readings of the public IP; the summary file is written
    after all of them and is the only file written. *)
Theorem successful_run_order fuel w st :
  run fuel w = (inl tt, st) →
  ∃ d rgp (n : nat) ip l,
    rgp ∈ rg_steps (d_rg d) (d_location d) ∧
    (1 ≤ n ≤ 31)%nat ∧
    log st =
      l ++ [summary d ip;
            Stdout "Instance info saved to /tmp/azure-instance-info.txt."] ∧
    writes l = [] ∧
    calls l =
      rgp ++ [vnet_request d; subnet_request d; nsg_request d] ++
      rule_requests d ++
      [pubip_request d; nic_request d; vm_request d] ++
      replicate n (poll_request d).
Proof.
  intros E. pose proof (run_shaped fuel w) as H. unfold shaped in H.
  rewrite E in H. cbn [fst snd] in H.
  destruct H as (d & rgp & n & Hrgp & Hn & _ & Hn1 & ip & l & _ & _ & Hlog &
                 Hcalls & Hw).
  exists d, rgp, n, ip, l. rewrite <- all_requests_eq.
  repeat split; try done; lia.
Qed.

Lemma successful_run_order_witness :
  ∃ d rgp (n : nat) ip l,
    rgp ∈ rg_steps (d_rg d) (d_location d) ∧
    (1 ≤ n ≤ 31)%nat ∧
    log (run 30 world_ok).2 =
      l ++ [summary d ip;
            Stdout "Instance info saved to /tmp/azure-instance-info.txt."] ∧
    writes l = [] ∧
    calls l =
      rgp ++ [vnet_request d; subnet_request d; nsg_request d] ++
      rule_requests d ++
      [pubip_request d; nic_request d; vm_request d] ++
      replicate n (poll_request d).
Proof.
  apply (successful_run_order 30 world_ok).
  vm_compute. reflexivity.
Defined.




(** More fuel than the loop needs changes nothing. *)
Lemma poll_loop_fuel w rg_name pubip_name fuel1 :
  ∀ fuel2 (j : nat) ip st,
  (j ≤ 30)%nat → (30 ≤ fuel1 + j)%nat → (30 ≤ fuel2 + j)%nat →
  while fuel1 poll_cond (poll_body w rg_name pubip_name)
    (ip, 10 * Z.of_nat j) st =
  while fuel2 poll_cond (poll_body w rg_name pubip_name)
    (ip, 10 * Z.of_nat j) st.
Proof.
  induction fuel1 as [|fuel1 IH]; intros [|fuel2] j ip st Hj H1 H2;
    simpl while;
    destruct (poll_cond (ip, 10 * Z.of_nat j)) eqn:C;
    try reflexivity;
    try (apply poll_cond_true in C; lia).
  unfold mbind, M_bind.
  destruct (poll_body w rg_name pubip_name (ip, 10 * Z.of_nat j) st)
    as [[[ip' elapsed]|h] st'] eqn:E; [|reflexivity].
  assert (elapsed = 10 * Z.of_nat (S j)) as ->.
  { unfold poll_body, mbind, M_bind, time_sleep, emit, get, call in E.
    cbn [fst snd] in E.
    destruct (azure_get w _ _); inversion E. unfold interval. lia. }
  apply poll_cond_true in C. apply IH; lia.
Qed.

(** C4: the polling loop is bounded.  Run with room for 30 iterations it
    always returns: it makes [k ≤ 30] rounds, each one a sleep of 10 seconds
    followed by one reading of the address, and nothing else.  It makes no
    round when the address is already there and at least one when it is
    not; every reading but the last came back empty, and the last reading is
    the address the loop ends with, so the loop stops at the first reading
    that gives an address, or after 30 rounds, 300 seconds, when none does
    (or at the reading that raised).  It never ends for want of iterations:
    room for more than 30 gives the same result. *)
Theorem polling_loop_bounded w fuel rg_name pubip_name ip st :
  (30 ≤ fuel)%nat →
  ∃ (k : nat) r st',
    while fuel poll_cond (poll_body w rg_name pubip_name) (ip, 0) st =
      (r, st') ∧
    (k ≤ 30)%nat ∧
    log st' =
      log st ++
      mjoin (replicate k
               [Sleep 10; Call (public_ip_addresses_get rg_name pubip_name)]) ∧
    requests st' = (requests st + k)%nat ∧
    (truthy ip = true → k = 0%nat) ∧
    (truthy ip = false → (0 < k)%nat) ∧
    (∀ i, (i + 1 < k)%nat → ∃ v,
       azure_get w (requests st + i)
         (public_ip_addresses_get rg_name pubip_name) = Some v ∧
       truthy v = false) ∧
    match r with
    | inl (ip', elapsed) =>
        elapsed = 10 * Z.of_nat k ∧ (truthy ip' = true ∨ elapsed = 300) ∧
        (k = 0%nat → ip' = ip) ∧
        ((0 < k)%nat →
         azure_get w (requests st + k - 1)
           (public_ip_addresses_get rg_name pubip_name) = Some ip')
    | inr h =>
        h = Uncaught ∧ (0 < k)%nat ∧
        azure_get w (requests st + k - 1)
          (public_ip_addresses_get rg_name pubip_name) = None
    end ∧
    while 30 poll_cond (poll_body w rg_name pubip_name) (ip, 0) st = (r, st').
Proof.
  intros Hfuel.
  pose proof (poll_loop_spec w rg_name pubip_name fuel 0%nat ip st
                ltac:(lia)) as H.
  pose proof (poll_loop_fuel w rg_name pubip_name 30 fuel 0%nat ip st
                ltac:(lia) ltac:(lia) ltac:(lia)) as H30.
  unfold wp in H. change (10 * Z.of_nat 0) with 0 in H, H30.
  destruct (while fuel poll_cond (poll_body w rg_name pubip_name) (ip, 0) st)
    as [r st'].
  cbn [fst snd] in H.
  destruct H as (k & Hk & Hlog & Hreq & Hfirst & Hmid & Hr).
  exists k, r, st'. split; [reflexivity|]. split; [lia|].
  split; [exact Hlog|]. split; [exact Hreq|]. split; [exact Hfirst|].
  assert (Hpos : truthy ip = false → (0 < k)%nat).
  { intros T. destruct r as [[ip' elapsed]|h].
    - destruct Hr as (_ & Hend & H0 & _).
      destruct k as [|k]; [|lia]. rewrite (H0 eq_refl), T in Hend.
      destruct Hend as [Hend|Hend]; [discriminate Hend | lia].
    - destruct Hr as [(_ & Hpos & _) | (_ & Hf)]; [exact Hpos | lia]. }
  split; [exact Hpos|]. split; [exact Hmid|]. split; [|exact H30].
  destruct r as [[ip' elapsed]|h].
  - destruct Hr as (-> & Hend & H0 & Hlast). split; [f_equal; lia|].
    split; [destruct Hend as [?|Hend]; [now left | right; lia]|].
    split; [exact H0 | exact Hlast].
  - destruct Hr as [(-> & Hp & Hno) | (_ & Hf)]; [auto | lia].
Qed.

Lemma polling_loop_bounded_witness :
  ∃ (k : nat) r st',
    while 30 poll_cond (poll_body world_no_ip "labs" "ip") (None, 0) initial =
      (r, st') ∧
    (k ≤ 30)%nat ∧
    log st' =
      log initial ++
      mjoin (replicate k
               [Sleep 10; Call (public_ip_addresses_get "labs" "ip")]) ∧
    requests st' = (requests initial + k)%nat ∧
    (truthy None = true → k = 0%nat) ∧
    (truthy None = false → (0 < k)%nat) ∧
    (∀ i, (i + 1 < k)%nat → ∃ v,
       azure_get world_no_ip (requests initial + i)
         (public_ip_addresses_get "labs" "ip") = Some v ∧
       truthy v = false) ∧
    match r with
    | inl (ip', elapsed) =>
        elapsed = 10 * Z.of_nat k ∧ (truthy ip' = true ∨ elapsed = 300) ∧
        (k = 0%nat → ip' = None) ∧
        ((0 < k)%nat →
         azure_get world_no_ip (requests initial + k - 1)
           (public_ip_addresses_get "labs" "ip") = Some ip')
    | inr h =>
        h = Uncaught ∧ (0 < k)%nat ∧
        azure_get world_no_ip (requests initial + k - 1)
          (public_ip_addresses_get "labs" "ip") = None
    end ∧
    while 30 poll_cond (poll_body world_no_ip "labs" "ip") (None, 0) initial =
      (r, st').
Proof.
  apply (polling_loop_bounded world_no_ip 30 "labs" "ip" None initial).
  lia.
Defined.

Lemma main_provision w fuel st rg_name vm_name location public_ip st' :
  provision w fuel st = (inl (rg_name, vm_name, location, public_ip), st') →
  main w fuel st = report rg_name vm_name location public_ip st'.
Proof.
  intros E. unfold main, mbind, M_bind. now rewrite E.
Qed.

(** C5: when the script reaches the end of the polling with the address
    still missing, it writes one line to standard error and exits with
    status 1, and no file has been written; with an address it goes on to
    standard output and then writes the summary file. *)
Theorem address_decides_summary fuel w rg_name vm_name location public_ip st :
  provision w fuel initial =
    (inl (rg_name, vm_name, location, public_ip), st) →
  if truthy public_ip then
    (run fuel w).1 = inl tt ∧
    ∃ out,
      log (run fuel w).2 =
        log st ++ out ++
        [WriteFile "/tmp/azure-instance-info.txt"
           (info rg_name vm_name location (str public_ip)
              ("ssh azureuser@" +:+ str public_ip));
         Stdout "Instance info saved to /tmp/azure-instance-info.txt."] ∧
      calls out = [] ∧ writes out = []
  else
    (run fuel w).1 = inr (SysExit 1) ∧
    exit_status (run fuel w).1 = 1 ∧
    log (run fuel w).2 =
      log st ++ [Stderr "Error: Timed out waiting for public IP assignment."] ∧
    writes (log (run fuel w).2) = [].
Proof.
  intros E. pose proof (run_shaped fuel w) as G. unfold shaped in G.
  cbv beta in G. unfold run in *. rewrite (main_provision _ _ _ _ _ _ _ _ E) in *.
  destruct (truthy public_ip) eqn:T.
  - apply truthy_Some in T as (ip & -> & Hip).
    destruct (report_written rg_name vm_name location ip st Hip)
      as (out & st' & E' & _ & Hlog & Hout).
    rewrite E'. cbn [fst snd str default from_option]. split; [reflexivity|].
    exists out. split; [exact Hlog | exact Hout].
  - rewrite (report_timeout _ _ _ _ _ T) in *. cbn [fst snd] in *.
    destruct G as (_ & _ & _ & _ & _ & _ & _ & _ & Hw).
    repeat split; try reflexivity. exact Hw.
Qed.

Lemma address_decides_summary_witness :
  (run 30 world_no_ip).1 = inr (SysExit 1) ∧
  exit_status (run 30 world_no_ip).1 = 1 ∧
  log (run 30 world_no_ip).2 =
    log (provision world_no_ip 30 initial).2 ++
    [Stderr "Error: Timed out waiting for public IP assignment."] ∧
  writes (log (run 30 world_no_ip).2) = [].
Proof.
  refine (address_decides_summary 30 world_no_ip
            "ArmResourceGroup-1700000000"
            "ArmVM-ArmResourceGroup-1700000000-1700000004"
            "eastus" None (provision world_no_ip 30 initial).2 _).
  vm_compute. reflexivity.
Defined.

(** * Creations and deletions *)

Lemma omap_creates_polls d n :
  omap creates (replicate n (poll_request d)) = [].
Proof. induction n as [|n IH]; [reflexivity | exact IH]. Qed.

Lemma rg_steps_cases rgp rg_name location :
  rgp ∈ rg_steps rg_name location →
  rgp = [] ∨ rgp = [resource_groups_list] ∨
  rgp = [resource_groups_list;
         resource_groups_create_or_update rg_name location].
Proof.
  unfold rg_steps. rewrite !elem_of_cons, elem_of_nil. tauto.
Qed.

Ltac not_in_tac :=
  rewrite ?elem_of_cons, elem_of_nil;
  let H := fresh in
  intros H; repeat (destruct H as [H|H]; [discriminate H|]); exact H.

Lemma all_requests_created_once d rgp n :
  rgp ∈ rg_steps (d_rg d) (d_location d) →
  NoDup (omap creates (all_requests d rgp n)).
Proof.
  intros Hrgp. unfold all_requests.
  rewrite !omap_app, omap_creates_polls, app_nil_r.
  assert (Hnet : NoDup
    ((ResourceGroup, d_rg d, []) ::
     omap creates (network_requests d) ++ omap creates [vm_request d])).
  { unfold network_requests, rule_requests, fixed_rules.
    vm_compute.
    repeat (apply NoDup_cons; split; [not_in_tac|]). apply NoDup_nil_2. }
  apply rg_steps_cases in Hrgp as [->| [->| ->]]; simpl omap at 1.
  - now apply NoDup_cons in Hnet as [_ Hnet].
  - now apply NoDup_cons in Hnet as [_ Hnet].
  - exact Hnet.
Qed.

Lemma all_requests_no_delete d rgp n :
  rgp ∈ rg_steps (d_rg d) (d_location d) →
  Forall (λ r, is_delete r = false) (all_requests d rgp n).
Proof.
  intros Hrgp. unfold all_requests, network_requests, rule_requests.
  repeat apply Forall_app_2.
  - apply rg_steps_cases in Hrgp as [->| [->| ->]]; repeat constructor.
  - repeat constructor.
  - repeat constructor.
  - repeat constructor.
  - repeat constructor.
  - apply Forall_replicate. reflexivity.
Qed.

(** The requests of any run are an initial part of the fixed sequence. *)
Lemma run_calls_prefix fuel w :
  ∃ d rgp (n : nat),
    rgp ∈ rg_steps (d_rg d) (d_location d) ∧
    calls (log (run fuel w).2) `prefix_of` all_requests d rgp n.
Proof.
  pose proof (run_shaped fuel w) as G. unfold shaped in G. cbv beta in G.
  destruct G as (d & rgp & n & Hrgp & _ & _ & Hr).
  exists d, rgp, n. split; [exact Hrgp|].
  destruct (run fuel w).1 as [[]|h].
  - destruct Hr as (_ & ip & l & _ & _ & Hlog & Hcalls & _).
    rewrite Hlog, calls_app, Hcalls. simpl. now rewrite app_nil_r.
  - now destruct Hr as (_ & Hpre & _).
Qed.

(** C8: no retry and no rollback.  In every run, whatever its outcome, no
    resource is asked to be created twice and no deletion is ever
    requested. *)
Theorem no_retry_no_rollback fuel w :
  NoDup (omap creates (calls (log (run fuel w).2))) ∧
  Forall (λ r, is_delete r = false) (calls (log (run fuel w).2)).
Proof.
  destruct (run_calls_prefix fuel w) as (d & rgp & n & Hrgp & [k Hk]).
  pose proof (all_requests_created_once d rgp n Hrgp) as Hnd.
  pose proof (all_requests_no_delete d rgp n Hrgp) as Hdel.
  rewrite Hk in Hnd, Hdel. split.
  - rewrite omap_app in Hnd. now apply NoDup_app in Hnd as [Hnd _].
  - now apply Forall_app in Hdel as [Hdel _].
Qed.

(** * The security rules *)






(** * The summary file *)

Lemma append_assoc (s1 s2 s3 : string) :
  (s1 +:+ s2) +:+ s3 = s1 +:+ s2 +:+ s3.
Proof.
  induction s1 as [|c s1 IH].
  - reflexivity.
  - change (String c ((s1 +:+ s2) +:+ s3) = String c (s1 +:+ s2 +:+ s3)).
    now rewrite IH.
Qed.

Lemma contains_here pre sub post : contains (pre +:+ sub +:+ post) sub.
Proof. now exists pre, post. Qed.

Lemma contains_skip pre s sub : contains s sub → contains (pre +:+ s) sub.
Proof.
  intros (p & q & ->). exists (pre +:+ p), q. now rewrite append_assoc.
Qed.

Lemma info_contains rg_name vm_name location public_ip ssh_cmd :
  let content := info rg_name vm_name location public_ip ssh_cmd in
  contains content rg_name ∧ contains content vm_name ∧
  contains content location ∧ contains content public_ip ∧
  contains content ssh_cmd.
Proof.
  cbv zeta. unfold info. repeat split.
  - apply contains_here.
  - do 2 apply contains_skip. apply contains_here.
  - do 4 apply contains_skip. apply contains_here.
  - do 6 apply contains_skip. apply contains_here.
  - do 8 apply contains_skip. apply contains_here.
Qed.

(** C7: a run that completes writes exactly one file,
    /tmp/azure-instance-info.txt, and its content contains the resource
    group, the name and the location of the virtual machine it created, the
    address that the last reading of the public IP returned, and the
    command ssh azureuser@ followed by that address. *)
Theorem summary_file_written fuel w st :
  run fuel w = (inl tt, st) →
  ∃ d ip content,
    vm_request d ∈ calls (log st) ∧
    ip ≠ "" ∧
    azure_get w (requests st - 1) (poll_request d) = Some (Some ip) ∧
    writes (log st) = [("/tmp/azure-instance-info.txt", content)] ∧
    content =
      info (d_rg d) (d_vm d) (d_location d) ip ("ssh azureuser@" +:+ ip) ∧
    contains content (d_rg d) ∧ contains content (d_vm d) ∧
    contains content (d_location d) ∧ contains content ip ∧
    contains content ("ssh azureuser@" +:+ ip).
Proof.
  intros E. pose proof (run_shaped fuel w) as H. unfold shaped in H.
  rewrite E in H. cbn [fst snd] in H.
  destruct H as (d & rgp & n & _ & _ & _ & _ & ip & l & Hip & Hget & Hlog &
                 Hcalls & Hw).
  exists d, ip, (info (d_rg d) (d_vm d) (d_location d) ip
                   ("ssh azureuser@" +:+ ip)).
  split.
  { rewrite Hlog, calls_app, Hcalls. unfold all_requests.
    rewrite !elem_of_app. left; right; right; left.
    now apply list_elem_of_singleton. }
  split; [exact Hip|]. split; [exact Hget|]. split.
  { rewrite Hlog, writes_app, Hw. reflexivity. }
  split; [reflexivity|]. apply info_contains.
Qed.

Lemma summary_file_written_witness :
  ∃ d ip content,
    vm_request d ∈ calls (log (run 30 world_ok).2) ∧
    ip ≠ "" ∧
    azure_get world_ok (requests (run 30 world_ok).2 - 1) (poll_request d) =
      Some (Some ip) ∧
    writes (log (run 30 world_ok).2) =
      [("/tmp/azure-instance-info.txt", content)] ∧
    content =
      info (d_rg d) (d_vm d) (d_location d) ip ("ssh azureuser@" +:+ ip) ∧
    contains content (d_rg d) ∧ contains content (d_vm d) ∧
    contains content (d_location d) ∧ contains content ip ∧
    contains content ("ssh azureuser@" +:+ ip).
Proof.
  apply (summary_file_written 30 world_ok).
  vm_compute. reflexivity.
Defined.

(** * The key file *)

Lemma create_vm_no_key w rg_name location nic_id st :
  ssh_key_file w = None →
  create_vm w rg_name location nic_id st =
    (inr (SysExit 1),
     logged (Stderr ("Error: SSH public key not found at " +:+ ssh_key_path w))
       (logged
          (Stdout ("Creating virtual machine " +:+
                   ("ArmVM-" +:+ rg_name +:+ "-" +:+
                    pretty (clock w (ticks st))) +:+ "..."))
          (ticked st))).
Proof.
  intros Hkey. unfold create_vm, mbind, M_bind. rewrite Hkey. reflexivity.
Qed.

(** C10: without the key file the run stops before the virtual machine.
    When the script has got through the network interface and
    ~/.ssh/id_rsa.pub does not exist, it announces the virtual machine,
    writes one line to standard error and exits with status 1; the requests
    of the run are then the resource-group step, the network, the security
    group with its rules, the public IP and the network interface, and no
    request for a virtual machine. *)
Theorem missing_key_stops_before_vm fuel w rg_name location pubip_name nic_id
    st :
  ssh_key_file w = None →
  networking w initial = (inl (rg_name, location, pubip_name, nic_id), st) →
  (run fuel w).1 = inr (SysExit 1) ∧
  exit_status (run fuel w).1 = 1 ∧
  log (run fuel w).2 =
    log st ++
    [Stdout ("Creating virtual machine " +:+
             ("ArmVM-" +:+ rg_name +:+ "-" +:+ pretty (clock w (ticks st)))
             +:+ "...");
     Stderr ("Error: SSH public key not found at " +:+ ssh_key_path w)] ∧
  ∃ d rgp,
    d_rg d = rg_name ∧ d_location d = location ∧
    rgp ∈ rg_steps rg_name location ∧
    calls (log (run fuel w).2) =
      rgp ++ [vnet_request d; subnet_request d; nsg_request d] ++
      rule_requests d ++ [pubip_request d; nic_request d].
Proof.
  intros Hkey E.
  assert (Hrun : run fuel w =
    (inr (SysExit 1),
     logged (Stderr ("Error: SSH public key not found at " +:+ ssh_key_path w))
       (logged
          (Stdout ("Creating virtual machine " +:+
                   ("ArmVM-" +:+ rg_name +:+ "-" +:+
                    pretty (clock w (ticks st))) +:+ "..."))
          (ticked st)))).
  { unfold run, main, provision, deploy_vm, mbind, M_bind. rewrite E.
    now rewrite (create_vm_no_key _ _ _ _ _ Hkey). }
  rewrite Hrun. cbn [fst snd log logged ticked exit_status].
  split; [reflexivity|]. split; [reflexivity|].
  split; [now rewrite <- app_assoc|].
  pose proof (wp_run _ _ _ _ _ (networking_spec w) E) as H.
  destruct H as (d & rg_rs & net_rs & [Hc _] & _ & -> & -> & _ & _ & Hrgp & ->).
  exists d, rg_rs. split; [reflexivity|]. split; [reflexivity|].
  split; [exact Hrgp|].
  rewrite !calls_app, Hc. simpl. rewrite !app_nil_r. reflexivity.
Qed.

Lemma missing_key_stops_before_vm_witness :
  (run 30 world_no_key).1 = inr (SysExit 1) ∧
  exit_status (run 30 world_no_key).1 = 1 ∧
  log (run 30 world_no_key).2 =
    log (networking world_no_key initial).2 ++
    [Stdout ("Creating virtual machine " +:+
             ("ArmVM-" +:+ "ArmResourceGroup-1700000000" +:+ "-" +:+
              pretty (clock world_no_key
                        (ticks (networking world_no_key initial).2)))
             +:+ "...");
     Stderr ("Error: SSH public key not found at " +:+
             ssh_key_path world_no_key)] ∧
  ∃ d rgp,
    d_rg d = "ArmResourceGroup-1700000000" ∧ d_location d = "eastus" ∧
    rgp ∈ rg_steps "ArmResourceGroup-1700000000" "eastus" ∧
    calls (log (run 30 world_no_key).2) =
      rgp ++ [vnet_request d; subnet_request d; nsg_request d] ++
      rule_requests d ++ [pubip_request d; nic_request d].
Proof.
  refine (missing_key_stops_before_vm 30 world_no_key
            "ArmResourceGroup-1700000000" "eastus"
            "ArmPublicIP-ArmResourceGroup-1700000000-1700000002"
            "/subscriptions/subscription/16"
            (networking world_no_key initial).2 _ _).
  - reflexivity.
  - vm_compute. reflexivity.
Defined.

Lemma missing_variable_exits_witness :
  ∃ name, name ∈ required_variables world_unset ∧
    run 30 world_unset =
      (inr (SysExit 1),
       {| requests := 0; ticks := 0;
          log := [Stderr ("Error: Environment variable " +:+ name +:+
                          " is required.")] |}) ∧
    calls (log (run 30 world_unset).2) = [] ∧
    exit_status (run 30 world_unset).1 ≠ 0.
Proof.
  apply (missing_variable_exits 30 world_unset).
  exists "AZURE_SUBSCRIPTION_ID". split.
  - apply list_elem_of_In. vm_compute. auto 10.
  - vm_compute. reflexivity.
Defined.

(** * Every run: one group, one location, one line of error *)

Lemma errs_app l1 l2 : errs (l1 ++ l2) = errs l1 ++ errs l2.
Proof.
  induction l1 as [|[] l1 IH]; simpl; congruence.
Qed.

Lemma traced_refl w g l st : traced w g l st st None.
Proof.
  exists []. split; [now rewrite app_nil_r|].
  split; [simpl; lia|].
  repeat split; constructor.
Qed.

Lemma traced_logged w g l e st st' :
  calls [e] = [] → errs [e] = [] → is_construct e = false →
  traced w g l st st' None → traced w g l st (logged e st') None.
Proof.
  intros Hc He Hk (evs & Hlog & Hreq & Hcalls & Hcons & Herrs).
  exists (evs ++ [e]). split; [simpl; now rewrite Hlog, app_assoc|].
  split; [simpl; now rewrite calls_app, Hc, app_nil_r|].
  split; [now rewrite calls_app, Hc, app_nil_r|].
  split; [apply Forall_app_2; [exact Hcons | now constructor]|].
  now rewrite errs_app, He, app_nil_r.
Qed.

Lemma traced_asked w g l r st st' :
  targets g l r →
  traced w g l st st' None → traced w g l st (asked (Call r) st') None.
Proof.
  intros Hr (evs & Hlog & Hreq & Hcalls & Hcons & Herrs).
  exists (evs ++ [Call r]). split; [simpl; now rewrite Hlog, app_assoc|].
  split; [simpl; rewrite calls_app, length_app, Hreq; simpl; lia|].
  split; [rewrite calls_app; apply Forall_app_2; [exact Hcalls|]|].
  { now constructor. }
  split; [apply Forall_app_2; [exact Hcons | now constructor]|].
  rewrite errs_app, Herrs. reflexivity.
Qed.

Lemma traced_raised w g l r st st' :
  targets g l r → refused w (requests st') r →
  traced w g l st st' None →
  traced w g l st (asked (Call r) st') (Some Uncaught).
Proof.
  intros Hr Hno (evs & Hlog & Hreq & Hcalls & Hcons & Herrs).
  exists (evs ++ [Call r]). split; [simpl; now rewrite Hlog, app_assoc|].
  split; [simpl; rewrite calls_app, length_app, Hreq; simpl; lia|].
  split; [rewrite calls_app; apply Forall_app_2; [exact Hcalls|]|].
  { now constructor. }
  split; [apply Forall_app_2; [exact Hcons | now constructor]|].
  split; [rewrite errs_app, Herrs; reflexivity|].
  right. exists evs, r. split; [reflexivity|]. now rewrite <- Hreq.
Qed.

Lemma traced_unread w g l key st st' :
  ssh_key_file w = Some key → ssh_key_opens w = false →
  traced w g l st st' None → traced w g l st st' (Some Uncaught).
Proof.
  intros Hkey Hopen (evs & Hlog & Hreq & Hcalls & Hcons & Herrs).
  exists evs. split; [exact Hlog|]. split; [exact Hreq|].
  split; [exact Hcalls|]. split; [exact Hcons|]. split; [exact Herrs|].
  left. eauto.
Qed.

Lemma traced_ticked w g l st st' o :
  traced w g l st st' o → traced w g l st (ticked st') o.
Proof. exact id. Qed.

Lemma traced_exit w g l msg st st' :
  exit_reason w msg →
  traced w g l st st' None →
  traced w g l st (logged (Stderr msg) st') (Some (SysExit 1)).
Proof.
  intros Hmsg (evs & Hlog & Hreq & Hcalls & Hcons & Herrs).
  exists (evs ++ [Stderr msg]). split; [simpl; now rewrite Hlog, app_assoc|].
  split; [simpl; now rewrite calls_app, app_nil_r|].
  split; [now rewrite calls_app, app_nil_r|].
  split; [apply Forall_app_2; [exact Hcons | now constructor]|].
  split; [reflexivity|]. exists msg.
  split; [now rewrite errs_app, Herrs|]. split; [apply last_snoc | exact Hmsg].
Qed.

Lemma traced_out_of_fuel w g l st st' :
  traced w g l st st' None → traced w g l st st' (Some OutOfFuel).
Proof. exact id. Qed.

Lemma traced_trans w g l st st' st'' o :
  traced w g l st st' None → traced w g l st' st'' o →
  traced w g l st st'' o.
Proof.
  intros (evs & Hlog & Hreq & Hcalls & Hcons & Herrs)
         (evs' & Hlog' & Hreq' & Hcalls' & Hcons' & Herrs').
  exists (evs ++ evs'). split; [now rewrite Hlog', Hlog, app_assoc|].
  split; [rewrite calls_app, length_app; lia|].
  split; [rewrite calls_app; now apply Forall_app_2|].
  split; [now apply Forall_app_2|].
  destruct o as [[code| |]|]; rewrite ?errs_app, ?Herrs; try exact Herrs'.
  - destruct Herrs' as (-> & msg & He & Hl & Hmsg). split; [reflexivity|].
    exists msg. rewrite He. split; [reflexivity|]. split; [|exact Hmsg].
    destruct evs' as [|e evs'] using rev_ind; [discriminate Hl|].
    rewrite last_snoc in Hl. rewrite app_assoc, last_snoc. exact Hl.
  - destruct Herrs' as (He & [Hkey|(pre & r & -> & Hno)]);
      (split; [exact He|]); [now left|].
    right. exists (evs ++ pre), r. split; [now rewrite app_assoc|].
    rewrite calls_app, length_app.
    replace (requests st + (length (calls evs) + length (calls pre)))%nat
      with (requests st' + length (calls pre))%nat by lia.
    exact Hno.
Qed.

(** A request built by the script stays in its group and location. *)
Ltac targets_tac :=
  split; (let E := fresh in
          intros ? E; cbn [group_of location_of nic_location vm_location] in E;
          first [discriminate E | injection E as <-; reflexivity]).

(** Collects the events between two states of a proof. *)
Ltac traced_tac :=
  cbv beta in *;
  repeat lazymatch goal with
  | |- traced _ _ _ ?a ?a None => apply traced_refl
  | |- traced _ _ _ _ (asked (Call _) _) (Some Uncaught) =>
      apply traced_raised; [targets_tac|assumption|]
  | |- traced _ _ _ _ (asked (Call _) _) None =>
      apply traced_asked; [targets_tac|]
  | |- traced _ _ _ _ (ticked _) _ => apply traced_ticked
  | |- traced _ _ _ _ (logged (Stderr _) _) (Some (SysExit 1)) =>
      apply traced_exit;
      [first [right; reflexivity | left; split; [reflexivity|assumption]]|]
  | |- traced _ _ _ _ (logged _ _) None =>
      apply traced_logged; [reflexivity|reflexivity|reflexivity|]
  | H : traced _ _ _ _ ?st ?o |- traced _ _ _ _ ?st ?o =>
      eapply traced_trans; [|exact H]
  end.

Lemma create_rule_traced w g l nsg_name port priority st :
  wp (create_rule w g nsg_name port priority) st (λ r st',
    traced w g l st st' (halted r)).
Proof.
  unfold create_rule. wp_step. wp_put_step rid Hput.
  - wp_step. simpl halted. traced_tac.
  - simpl halted. traced_tac.
Qed.

Lemma rules_loop_traced w g l nsg_name ps :
  ∀ priority st,
  wp (for_ ps (create_rule w g nsg_name) priority) st (λ r st',
    traced w g l st st' (halted r)).
Proof.
  induction ps as [|port ps IH]; intros priority st; simpl for_.
  - wp_step. apply traced_refl.
  - wp_seq. eapply wp_mono; [apply create_rule_traced with (l := l)|].
    intros [priority'|h] st1 H1; simpl halted in H1.
    + eapply wp_mono; [apply IH|].
      intros r st' H. traced_tac.
    + exact H1.
Qed.

Lemma create_networking_traced w g l st :
  wp (create_networking w g l) st (λ r st', traced w g l st st' (halted r)).
Proof.
  unfold create_networking, create_network. wp_step.
  wp_put_step vnet_id Hvnet; [|simpl halted; traced_tac].
  wp_put_step subnet_id Hsubnet; [|simpl halted; traced_tac].
  wp_step. unfold create_nsg. do 2 wp_step.
  wp_put_step nsg_id Hnsg; [|simpl halted; traced_tac].
  wp_seq. eapply wp_mono; [apply rules_loop_traced with (l := l)|].
  intros [priority|h] st1 H1; simpl halted in H1; [|traced_tac].
  wp_step. unfold create_public_ip. do 2 wp_step.
  wp_put_step pubip_id Hpubip; [|simpl halted; traced_tac].
  wp_step. unfold create_nic. do 2 wp_step.
  wp_put_step nic_id Hnic; [|simpl halted; traced_tac].
  wp_step. simpl halted. traced_tac.
Qed.

Lemma traced_rounds w g l pubip_name k st st' :
  log st' = log st ++ mjoin (replicate k (poll_round g pubip_name)) →
  requests st' = (requests st + k)%nat →
  traced w g l st st' None.
Proof.
  intros H Hreq. eexists. split; [exact H|]. clear H.
  rewrite calls_poll_rounds, length_replicate. split; [exact Hreq|].
  clear Hreq.
  induction k as [|k (Hc & Hk & He)]; [repeat split; constructor|].
  split; [|split].
  - simpl. constructor; [targets_tac | exact Hc].
  - simpl. repeat constructor. exact Hk.
  - exact He.
Qed.

(** A polling loop that the SDK interrupts: the reading that raised is the
    last event. *)
Lemma traced_rounds_raised w g l pubip_name k st st' :
  log st' = log st ++ mjoin (replicate k (poll_round g pubip_name)) →
  requests st' = (requests st + k)%nat →
  (0 < k)%nat →
  azure_get w (requests st + k - 1) (public_ip_addresses_get g pubip_name)
    = None →
  traced w g l st st' (Some Uncaught).
Proof.
  intros Hlog Hreq Hpos Hno. destruct k as [|k]; [lia|].
  replace (S k) with (k + 1)%nat in Hlog by lia.
  rewrite replicate_add, join_app in Hlog. simpl in Hlog.
  set (pre := mjoin (replicate k (poll_round g pubip_name)) ++
              [Sleep 10]).
  exists (pre ++ [Call (public_ip_addresses_get g pubip_name)]).
  assert (Hc : calls pre = replicate k (public_ip_addresses_get g pubip_name)).
  { unfold pre. now rewrite calls_app, calls_poll_rounds, app_nil_r. }
  split; [rewrite Hlog; unfold pre; now rewrite <- !app_assoc|].
  split; [rewrite calls_app, length_app, Hc, length_replicate; simpl; lia|].
  assert (T : traced w g l st
                {| requests := (requests st + k)%nat; ticks := ticks st;
                   log := log st ++
                          mjoin (replicate k (poll_round g pubip_name)) |}
                None).
  { now apply (traced_rounds w g l pubip_name k). }
  destruct T as (evs & Hl & _ & Hcalls & Hcons & Herrs).
  simpl in Hl. apply app_inv_head in Hl. subst evs.
  split; [|split; [|split]].
  - rewrite calls_app, Hc. apply Forall_app_2.
    + now rewrite calls_poll_rounds in Hcalls.
    + simpl. constructor; [targets_tac | constructor].
  - unfold pre. rewrite <- app_assoc.
    apply Forall_app_2; [exact Hcons | repeat constructor].
  - unfold pre. rewrite !errs_app, Herrs. reflexivity.
  - right. exists pre, (public_ip_addresses_get g pubip_name).
    split; [reflexivity|]. rewrite Hc, length_replicate. simpl.
    replace (requests st + k)%nat with (requests st + S k - 1)%nat by lia.
    exact Hno.
Qed.

Lemma deploy_vm_traced w fuel g l pubip_name nic_id st :
  wp (deploy_vm w fuel g l pubip_name nic_id) st (λ r st',
    traced w g l st st' (halted r)).
Proof.
  unfold deploy_vm, create_vm. do 2 wp_step. wp_seq.
  destruct (ssh_key_file w) as [key|] eqn:Hkey.
  2:{ do 2 wp_step. simpl halted. traced_tac. }
  destruct (ssh_key_opens w) eqn:Hopen.
  2:{ wp_step. simpl halted. apply (traced_unread w g l key); [assumption..|].
      traced_tac. }
  wp_step. wp_put_step vm_id Hvm; [|simpl halted; traced_tac].
  wp_step. unfold retrieve_public_ip. wp_seq.
  apply wp_get; cbv beta match zeta;
    [|intros Hget; simpl halted; traced_tac].
  intros ip0 Hget. wp_seq.
  eapply wp_mono;
    [exact (poll_loop_spec w g pubip_name fuel 0%nat ip0 _ ltac:(lia))|].
  intros r st1 (k & _ & Hlog & Hreq & _ & _ & Hr).
  destruct r as [[ip elapsed]|h].
  - apply (traced_rounds w g l) in Hlog; [|exact Hreq].
    do 2 wp_step. simpl halted. traced_tac.
  - simpl halted. destruct Hr as [(-> & Hpos & Hno) | (-> & _)].
    + apply (traced_rounds_raised w g l) in Hlog; [|assumption..].
      traced_tac.
    + apply (traced_rounds w g l) in Hlog; [|exact Hreq].
      apply traced_out_of_fuel. traced_tac.
Qed.

Lemma report_traced w g vm_name l public_ip st :
  wp (report g vm_name l public_ip) st (λ r st',
    traced w g l st st' (halted r)).
Proof.
  unfold report. wp_seq. destruct (truthy public_ip); simpl negb;
    cbv beta match zeta.
  - do 13 wp_step. simpl halted. traced_tac.
  - do 2 wp_step. simpl halted. traced_tac.
Qed.

Lemma determine_resource_group_traced w l st :
  requests st = 0%nat → ticks st = 0%nat →
  wp (determine_resource_group w l) st (λ r st',
    traced w (chosen_group w) l st st' (halted r) ∧
    ∀ rg_name, r = inl rg_name → rg_name = chosen_group w).
Proof.
  intros Hreq Htick. unfold determine_resource_group, chosen_group. cbv zeta.
  destruct (truthy (environ w !! "AZURE_RESOURCE_GROUP")) eqn:T.
  - do 2 wp_step. simpl halted. split; [traced_tac | congruence].
  - wp_seq. apply wp_list; cbv beta match zeta.
    + rewrite Hreq. intros [|rg0 rgs] ->.
      * do 2 wp_step. cbn [ticks asked]. rewrite Htick. wp_put_step rid Hput.
        -- wp_step. simpl halted. split; [traced_tac | congruence].
        -- simpl halted. split; [traced_tac | discriminate].
      * do 2 wp_step. simpl halted. split; [traced_tac | congruence].
    + intros Hno. simpl halted. split; [traced_tac | discriminate].
Qed.

(** The script, from a fresh process: either a required variable is
    missing and there is one line of error, or a constructor raises before
    any request, or the clients are built from the five variables and what
    follows is orderly. *)
Lemma run_traced fuel w :
  wp (main w fuel) initial (λ r st,
    (∃ name,
       name ∈ required_variables w ∧ truthy (environ w !! name) = false ∧
       r = inr (SysExit 1) ∧ log st = [Stderr (required_msg name)]) ∨
    (r = inr Uncaught ∧ (∃ class args, azure_new w class args = false) ∧
     calls (log st) = [] ∧ errs (log st) = []) ∨
    (∃ instr_sub spn_id spn_password tenant_id subscription_id evs,
       credentials_set w instr_sub spn_id spn_password tenant_id
         subscription_id ∧
       log st = preamble w spn_id spn_password tenant_id subscription_id
                ++ evs ∧
       orderly w (chosen_group w) (chosen_location w) 0 (halted r) evs)).
Proof.
  unfold main, provision, networking, credentials. wp_seq.
  apply wp_get_env_variable; cbv beta match zeta;
    [intros sub Esub Hsub
    | intros T; left; eexists; split; [|split; [exact T|split; reflexivity]];
      unfold required_variables; in_list].
  simpl str. wp_seq.
  apply wp_get_env_variable; cbv beta match zeta;
    [intros v1 E1 H1
    | intros T; left; eexists; split; [|split; [exact T|split; reflexivity]];
      unfold required_variables; rewrite Esub; in_list].
  wp_seq.
  apply wp_get_env_variable; cbv beta match zeta;
    [intros v2 E2 H2
    | intros T; left; eexists; split; [|split; [exact T|split; reflexivity]];
      unfold required_variables; rewrite Esub; in_list].
  wp_seq.
  apply wp_get_env_variable; cbv beta match zeta;
    [intros v3 E3 H3
    | intros T; left; eexists; split; [|split; [exact T|split; reflexivity]];
      unfold required_variables; rewrite Esub; in_list].
  wp_seq.
  apply wp_get_env_variable; cbv beta match zeta;
    [intros v4 E4 H4
    | intros T; left; eexists; split; [|split; [exact T|split; reflexivity]];
      unfold required_variables; rewrite Esub; in_list].
  do 2 wp_step. unfold clients.
  do 4 (wp_seq; apply wp_construct; cbv beta match zeta;
        [intros _
        | intros Hnew; right; left; split; [reflexivity|];
          split; [eauto|]; split; reflexivity]).
  wp_seq. simpl str.
  fold (chosen_location w).
  set (g := chosen_group w). set (l := chosen_location w).
  match goal with |- wp _ ?s _ => set (st0 := s) end.
  assert (Hst0 : log st0 = preamble w v1 v2 v3 v4) by reflexivity.
  cut (wp (rg_name ← determine_resource_group w l;
           '(pubip_name, nic_id) ← create_networking w rg_name l;
           '(vm_name, public_ip) ←
             deploy_vm w fuel rg_name l pubip_name nic_id;
           report rg_name vm_name l public_ip) st0
         (λ r st, traced w g l st0 st (halted r))).
  { assert (Hend : ∀ o st,
      traced w g l st0 st o →
      ∃ evs,
        credentials_set w sub v1 v2 v3 v4 ∧
        log st = preamble w v1 v2 v3 v4 ++ evs ∧
        orderly w g l 0 o evs).
    { intros o st (evs & Hlog & _ & Ho). exists evs. rewrite Hlog, Hst0.
      split; [repeat split; assumption|]. split; [reflexivity | exact Ho]. }
    intros H. unfold wp in *. revert H.
    unfold mbind, M_bind, mret, M_mret.
    destruct (determine_resource_group w l st0) as [[rg|h] st1];
      cbn [fst snd];
      [|intros H; right; right; exists sub, v1, v2, v3, v4;
       exact (Hend _ _ H)].
    destruct (create_networking w rg l st1) as [[[pubip nic]|h] st2];
      cbn [fst snd];
      [|intros H; right; right; exists sub, v1, v2, v3, v4;
       exact (Hend _ _ H)].
    destruct (deploy_vm w fuel rg l pubip nic st2) as [[[vm ip]|h] st3];
      cbn [fst snd];
      [|intros H; right; right; exists sub, v1, v2, v3, v4;
       exact (Hend _ _ H)].
    intros H; right; right; exists sub, v1, v2, v3, v4;
       exact (Hend _ _ H). }
  wp_seq. eapply wp_mono;
    [apply determine_resource_group_traced; reflexivity|].
  intros [rg|h] st1 [T1 Hrg]; simpl halted in T1; [|exact T1].
  rewrite (Hrg _ eq_refl). fold g.
  wp_seq. eapply wp_mono; [apply create_networking_traced|].
  intros [[pubip nic]|h] st2 T2; simpl halted in T2; [|traced_tac].
  wp_seq. eapply wp_mono; [apply deploy_vm_traced with (l := l)|].
  intros [[vm ip]|h] st3 T3; simpl halted in T3; [|traced_tac].
  eapply wp_mono; [apply report_traced|].
  intros r st4 T4. traced_tac.
Qed.


(** A whole run: what [run_traced] says of the script, then the traceback
    when an exception ended it. *)
Lemma run_cases fuel w :
  ∃ pre,
    log (run fuel w).2 =
      pre ++ match (run fuel w).1 with
             | inr Uncaught => map Stderr (traceback w)
             | _ => []
             end ∧
    ((∃ name,
        name ∈ required_variables w ∧ truthy (environ w !! name) = false ∧
        (run fuel w).1 = inr (SysExit 1) ∧
        pre = [Stderr (required_msg name)]) ∨
     ((run fuel w).1 = inr Uncaught ∧
      (∃ class args, azure_new w class args = false) ∧
      calls pre = [] ∧ errs pre = []) ∨
     (∃ instr_sub spn_id spn_password tenant_id subscription_id evs,
        credentials_set w instr_sub spn_id spn_password tenant_id
          subscription_id ∧
        pre = preamble w spn_id spn_password tenant_id subscription_id
              ++ evs ∧
        orderly w (chosen_group w) (chosen_location w) 0
          (halted (run fuel w).1) evs)).
Proof.
  exists (log (main w fuel initial).2). rewrite run_log, run_fst.
  split; [reflexivity|]. exact (run_traced fuel w).
Qed.

(** X1: every request of every run stays in one resource group and one
    location: the group named by AZURE_RESOURCE_GROUP, else the first group
    listed, else the new group; and the location of AZURE_LOCATION, eastus
    when it is unset. *)
Theorem requests_stay_in_one_group fuel w :
  Forall (targets (chosen_group w) (chosen_location w))
    (calls (log (run fuel w).2)).
Proof.
  destruct (run_cases fuel w) as (pre & Hlog & H). rewrite Hlog, calls_app.
  replace (calls match (run fuel w).1 with
                 | inr Uncaught => map Stderr (traceback w)
                 | _ => []
                 end) with (@nil request)
    by (destruct (run fuel w).1 as [[]|[code| |]];
        now rewrite ?calls_traceback).
  rewrite app_nil_r.
  destruct H as [(name & _ & _ & _ & ->)
                |[(_ & _ & -> & _)
                 |(sub & id & pw & tenant & subscr & evs & _ & -> & Ho & _)]].
  - constructor.
  - constructor.
  - rewrite calls_app. exact Ho.
Qed.


(** X3: with the five variables set and constructors that do not raise, a
    run starts by printing the location and building the credential from
    the tenant, client id and secret found under the names derived from
    INSTRUQT_AZURE_SUBSCRIPTIONS, then the three clients for
    AZURE_SUBSCRIPTION_ID; everything else comes after, and nothing else is
    ever constructed. *)
Theorem clients_built_first fuel w instr_sub spn_id spn_password tenant_id
    subscription_id :
  credentials_set w instr_sub spn_id spn_password tenant_id subscription_id →
  (∀ class args, azure_new w class args = true) →
  ∃ evs,
    log (run fuel w).2 =
      preamble w spn_id spn_password tenant_id subscription_id ++ evs ∧
    Forall (λ e, is_construct e = false) evs.
Proof.
  intros (Esub & E1 & E2 & E3 & E4 & Hsub & H1 & H2 & H3 & H4) Hnew.
  destruct (run_cases fuel w) as (pre & Hlog & H). rewrite Hlog. clear Hlog.
  destruct H as [(name & Hin & T & _)
                |[(_ & (class & args & Hno) & _)
                 |(sub' & id & pw & tenant & subscr & evs & Hset & -> & _ &
                   Hk & _)]].
  - exfalso. unfold required_variables in Hin. rewrite Esub in Hin.
    simpl in Hin. rewrite !elem_of_cons, elem_of_nil in Hin.
    assert (Ht : ∀ v x, environ w !! v = Some x → x ≠ "" →
                        truthy (environ w !! v) = true).
    { intros v x E Hx. apply truthy_Some. eauto. }
    destruct Hin as [->|[->|[->|[->|[->|[]]]]]];
      [rewrite (Ht _ _ Esub Hsub) in T | rewrite (Ht _ _ E1 H1) in T
      | rewrite (Ht _ _ E2 H2) in T | rewrite (Ht _ _ E3 H3) in T
      | rewrite (Ht _ _ E4 H4) in T]; discriminate T.
  - rewrite Hnew in Hno. discriminate Hno.
  - destruct Hset as (Esub' & E1' & E2' & E3' & E4' & _).
    assert (sub' = instr_sub) as -> by congruence.
    assert (id = spn_id) as -> by congruence.
    assert (pw = spn_password) as -> by congruence.
    assert (tenant = tenant_id) as -> by congruence.
    assert (subscr = subscription_id) as -> by congruence.
    eexists. rewrite <- app_assoc. split; [reflexivity|].
    apply Forall_app_2; [exact Hk|].
    destruct (run fuel w).1 as [[]|[code| |]]; try constructor.
    induction (traceback w); constructor; auto.
Qed.

Lemma clients_built_first_witness :
  ∃ evs,
    log (run 30 world_ok).2 =
      preamble world_ok "app" "secret" "tenant" "subscription" ++ evs ∧
    Forall (λ e, is_construct e = false) evs.
Proof.
  apply (clients_built_first 30 world_ok "sub1").
  - repeat split; first [discriminate | vm_compute; reflexivity].
  - reflexivity.
Defined.

(** The script does not depend on the fuel once there is room for 30
    iterations. *)
Lemma deploy_vm_fuel w fuel rg_name location pubip_name nic_id st :
  (30 ≤ fuel)%nat →
  deploy_vm w fuel rg_name location pubip_name nic_id st =
  deploy_vm w 30 rg_name location pubip_name nic_id st.
Proof.
  intros Hfuel. unfold deploy_vm, mbind, M_bind.
  destruct (create_vm w rg_name location nic_id st) as [[vm|h] st1];
    [|reflexivity].
  unfold retrieve_public_ip, mbind, M_bind.
  destruct (get w (public_ip_addresses_get rg_name pubip_name) st1)
    as [[ip|h] st2]; [|reflexivity].
  pose proof (poll_loop_fuel w rg_name pubip_name fuel 30 0%nat ip st2
                ltac:(lia) ltac:(lia) ltac:(lia)) as H.
  change (10 * Z.of_nat 0) with 0 in H. now rewrite H.
Qed.

(** X4: the script always terminates.  Room for 30 iterations of the
    polling loop is enough for every run: the run ends normally, by
    [sys.exit(1)] or by an exception that nothing catches, never for want
    of iterations, and more room changes nothing of the run. *)
Theorem run_terminates fuel w :
  (30 ≤ fuel)%nat →
  run fuel w = run 30 w ∧
  ((run fuel w).1 = inl tt ∨ (run fuel w).1 = inr (SysExit 1) ∨
   (run fuel w).1 = inr Uncaught).
Proof.
  intros Hfuel. split.
  - unfold run. f_equal. unfold main, provision, mbind, M_bind.
    destruct (networking w initial) as [[[[[rg loc] pubip] nic]|h] st];
      [|reflexivity].
    now rewrite (deploy_vm_fuel w fuel rg loc pubip nic st Hfuel).
  - pose proof (run_shaped fuel w) as G. unfold shaped in G.
    destruct G as (d & rgp & n & _ & _ & _ & Hr).
    destruct (run fuel w).1 as [[]|h].
    + now left.
    + destruct Hr as ([->|[->|[-> Hlt]]] & _); [auto | auto | lia].
Qed.

Lemma run_terminates_witness :
  run 40 world_ok = run 30 world_ok ∧
  ((run 40 world_ok).1 = inl tt ∨ (run 40 world_ok).1 = inr (SysExit 1) ∨
   (run 40 world_ok).1 = inr Uncaught).
Proof.
  apply (run_terminates 40 world_ok). lia.
Defined.

(** X5: when the 31 readings of the address all come back empty, the script
    has waited 30 times 10 seconds and goes on without an address. *)
Theorem polling_times_out w fuel rg_name pubip_name st :
  (30 ≤ fuel)%nat →
  (∀ i, (i ≤ 30)%nat → ∃ v,
     azure_get w (requests st + i)
       (public_ip_addresses_get rg_name pubip_name) = Some v ∧
     truthy v = false) →
  ∃ v st',
    retrieve_public_ip w fuel rg_name pubip_name st = (inl v, st') ∧
    truthy v = false ∧
    log st' =
      log st ++
      Call (public_ip_addresses_get rg_name pubip_name) ::
      mjoin (replicate 30
               [Sleep 10; Call (public_ip_addresses_get rg_name pubip_name)]).
Proof.
  intros Hfuel Hempty.
  destruct (Hempty 0%nat ltac:(lia)) as (v0 & Hv0 & T0).
  rewrite Nat.add_0_r in Hv0.
  unfold retrieve_public_ip, mbind, M_bind, get, call at 1. rewrite Hv0.
  set (st1 := asked (Call (public_ip_addresses_get rg_name pubip_name)) st).
  pose proof (poll_loop_spec w rg_name pubip_name fuel 0%nat v0 st1
                ltac:(lia)) as H.
  unfold wp in H. change (10 * Z.of_nat 0) with 0 in H.
  fold (get w (public_ip_addresses_get rg_name pubip_name)).
  destruct (while fuel poll_cond (poll_body w rg_name pubip_name) (v0, 0) st1)
    as [r st'].
  cbn [fst snd] in H.
  destruct H as (k & Hk & Hlog & _ & _ & _ & Hr).
  assert (Hans : ∀ v, (0 < k)%nat →
            azure_get w (requests st1 + k - 1)
              (public_ip_addresses_get rg_name pubip_name) = v →
            ∃ v', v = Some v' ∧ truthy v' = false).
  { intros v Hpos <-. destruct (Hempty k ltac:(lia)) as (v' & Hv' & T').
    exists v'. split; [|exact T']. rewrite <- Hv'. f_equal.
    subst st1. simpl. lia. }
  destruct r as [[ip elapsed]|h].
  - destruct Hr as (_ & Hend & H0 & Hlast).
    assert (T : truthy ip = false).
    { destruct k as [|k]; [now rewrite (H0 eq_refl)|].
      destruct (Hans _ ltac:(lia) (Hlast ltac:(lia))) as (v' & [= ->] & T').
      exact T'. }
    exists ip, st'. split; [reflexivity|]. split; [exact T|].
    destruct Hend as [Hend|Hend]; [congruence|].
    simpl in Hend. subst k. rewrite Hlog. subst st1. simpl log.
    now rewrite <- app_assoc.
  - exfalso. destruct Hr as [(_ & Hpos & Hlast) | (_ & Hlt)]; [|lia].
    destruct (Hans _ Hpos Hlast) as (v' & [=] & _).
Qed.

Lemma polling_times_out_witness :
  ∃ v st',
    retrieve_public_ip world_no_ip 30 "labs" "ip" initial = (inl v, st') ∧
    truthy v = false ∧
    log st' =
      log initial ++
      Call (public_ip_addresses_get "labs" "ip") ::
      mjoin (replicate 30
               [Sleep 10; Call (public_ip_addresses_get "labs" "ip")]).
Proof.
  apply (polling_times_out world_no_ip 30 "labs" "ip" initial).
  - lia.
  - intros i _. exists None. split; reflexivity.
Defined.



(** X7: the script calls [sys.exit] for three reasons only, and the line on
    standard error says which: a required variable is unset or empty, the
    key file is missing, or the address never came.  The status is 1 in
    each case. *)
Theorem exit_names_its_reason fuel w code :
  (run fuel w).1 = inr (SysExit code) →
  code = 1 ∧
  ∃ msg,
    errs (log (run fuel w).2) = [msg] ∧
    ((∃ name, name ∈ required_variables w ∧
              truthy (environ w !! name) = false ∧
              msg = required_msg name) ∨
     (msg = "Error: SSH public key not found at " +:+ ssh_key_path w ∧
      ssh_key_file w = None) ∨
     msg = "Error: Timed out waiting for public IP assignment.").
Proof.
  intros E. destruct (run_cases fuel w) as (pre & Hlog & H).
  rewrite E in Hlog, H. rewrite app_nil_r in Hlog. subst pre.
  destruct H as [(name & Hin & T & E' & Hlog)
                |[(E' & _)
                 |(sub & id & pw & tenant & subscr & evs & _ & Hlog & _ & _ &
                   Ho)]].
  - injection E' as ->. split; [reflexivity|].
    exists (required_msg name). rewrite Hlog. split; [reflexivity|].
    left. exists name. auto.
  - discriminate E'.
  - simpl halted in Ho.
    destruct Ho as (-> & msg & He & _ & Hmsg). split; [reflexivity|].
    exists msg. rewrite Hlog, errs_app. split; [exact He|].
    right. exact Hmsg.
Qed.

Lemma exit_names_its_reason_witness :
  1 = 1 ∧
  ∃ msg,
    errs (log (run 30 world_no_key).2) = [msg] ∧
    ((∃ name, name ∈ required_variables world_no_key ∧
              truthy (environ world_no_key !! name) = false ∧
              msg = required_msg name) ∨
     (msg = "Error: SSH public key not found at " +:+
            ssh_key_path world_no_key ∧
      ssh_key_file world_no_key = None) ∨
     msg = "Error: Timed out waiting for public IP assignment.").
Proof.
  apply (exit_names_its_reason 30 world_no_key 1).
  vm_compute. reflexivity.
Defined.

(** * Completed runs: what was asked and what was answered *)

Lemma wp_conj {A} (m : M A) st (Q1 Q2 : A + halt → state → Prop) :
  wp m st Q1 → wp m st Q2 → wp m st (λ r st', Q1 r st' ∧ Q2 r st').
Proof. unfold wp. auto. Qed.

(** The request whose failure is [H] was refused. *)
Ltac refused_tac H :=
  split; [reflexivity|];
  lazymatch type of H with
  | azure_put _ ?n ?r = None => exists n, r; exact H
  | azure_get _ ?n ?r = None => exists n, r; exact H
  | azure_list _ ?n = None => exists n, resource_groups_list; exact H
  end.

Lemma rules_loop_counts w rg_name nsg_name ps :
  ∀ priority st,
  wp (for_ ps (create_rule w rg_name nsg_name) priority) st (λ r st',
    match r with
    | inl _ =>
        requests st' = (requests st + length ps)%nat ∧ ticks st' = ticks st
    | inr h => h = Uncaught ∧ ∃ n r, refused w n r
    end).
Proof.
  induction ps as [|port ps IH]; intros priority st; simpl for_.
  - wp_step. split; [simpl; lia | reflexivity].
  - wp_seq.
    assert (H : wp (create_rule w rg_name nsg_name port priority) st
              (λ r st', match r with
                        | inl _ => requests st' = S (requests st) ∧
                                   ticks st' = ticks st
                        | inr h => h = Uncaught ∧ ∃ n r, refused w n r
                        end)).
    { unfold create_rule. wp_step. wp_put_step rid Hput; [|refused_tac Hput].
      wp_step. split; reflexivity. }
    eapply wp_mono; [exact H|]. clear H.
    intros [priority'|h] st1 H1; [|exact H1]. destruct H1 as [R1 K1].
    eapply wp_mono; [apply IH|].
    intros [?|?] st' H; [|exact H]. destruct H as [R K].
    rewrite R, K, R1, K1. simpl. split; [lia | reflexivity].
Qed.

Lemma determine_resource_group_wired w st :
  requests st = 0%nat → ticks st = 0%nat →
  wp (determine_resource_group w (chosen_location w)) st (λ r st',
    match r with
    | inl rg_name =>
        rg_name = chosen_group w ∧
        issued st st' (rg_plan w) ∧
        requests st' = length (rg_plan w) ∧
        ticks st' = length (List.filter is_rg_create (rg_plan w))
    | inr h => h = Uncaught ∧ ∃ n r, refused w n r
    end).
Proof.
  intros Hreq Htick.
  unfold determine_resource_group, rg_plan, chosen_group. cbv zeta.
  destruct (truthy (environ w !! "AZURE_RESOURCE_GROUP")) eqn:T.
  - do 2 wp_step. split; [reflexivity|]. split; [issued_solve|].
    simpl. split; assumption.
  - wp_seq. apply wp_list; cbv beta match zeta; rewrite Hreq;
      [|intros Hno; refused_tac Hno].
    intros [|rg0 rgs] ->.
    + do 2 wp_step. cbn [ticks asked]. rewrite Htick.
      wp_put_step rid Hput; [|refused_tac Hput].
      wp_step. split; [reflexivity|]. split; [issued_solve|].
      simpl. rewrite Hreq, Htick. split; reflexivity.
    + do 2 wp_step. split; [reflexivity|]. split; [issued_solve|].
      simpl. rewrite Hreq, Htick. split; reflexivity.
Qed.

Lemma issued_calls st st' rs :
  calls (log st) = [] → issued st st' rs → calls (log st') = rs.
Proof. intros E [H _]. now rewrite H, E. Qed.

(** A run that gets to the end of the polling: the requests it made, the
    names it chose and the answers it used. *)
Lemma provision_wired fuel w :
  wp (provision w fuel) initial (λ r st,
    match r with
    | inr h => gave_up w fuel h
    | inl (rg_name, vm_name, location, public_ip) =>
        ∃ d (n : nat),
          rg_name = d_rg d ∧ vm_name = d_vm d ∧ location = d_location d ∧
          calls (log st) = all_requests d (rg_plan w) n ∧
          writes (log st) = [] ∧
          d_rg d = chosen_group w ∧ d_location d = chosen_location w ∧
          let r0 := length (rg_plan w) in
          let t0 := length (List.filter is_rg_create (rg_plan w)) in
          d_nsg d =
            "ArmNSG-" +:+ d_rg d +:+ "-" +:+ pretty (clock w t0) ∧
          d_pubip d =
            "ArmPublicIP-" +:+ d_rg d +:+ "-" +:+ pretty (clock w (t0 + 1)) ∧
          d_nic d =
            "ArmNIC-" +:+ d_rg d +:+ "-" +:+ pretty (clock w (t0 + 2)) ∧
          d_vm d =
            "ArmVM-" +:+ d_rg d +:+ "-" +:+ pretty (clock w (t0 + 3)) ∧
          azure_put w (r0 + 1) (subnet_request d) = Some (d_subnet_id d) ∧
          azure_put w (r0 + 2) (nsg_request d) = Some (d_nsg_id d) ∧
          azure_put w (r0 + 13) (pubip_request d) = Some (d_pubip_id d) ∧
          azure_put w (r0 + 14) (nic_request d) = Some (d_nic_id d) ∧
          ssh_key_file w = Some (d_key d) ∧
          (1 ≤ n ≤ 31)%nat ∧
          (∀ i, (i + 1 < n)%nat → ∃ v,
             azure_get w (r0 + 16 + i) (poll_request d) = Some v ∧
             truthy v = false) ∧
          azure_get w (r0 + 15 + n) (poll_request d) = Some public_ip ∧
          (truthy public_ip = true ∨ n = 31%nat)
    end).
Proof.
  unfold provision, networking, credentials. wp_seq.
  apply wp_get_env_variable; cbv beta match zeta;
    [intros sub Esub _
    | intros T; left; split; [reflexivity|]; eexists; split; [|exact T];
      unfold required_variables; in_list].
  simpl str. wp_seq.
  do 4 (apply wp_get_env_variable; cbv beta match zeta;
        [intros ? _ _
        | intros T; left; split; [reflexivity|]; eexists; split; [|exact T];
          unfold required_variables; rewrite Esub; in_list];
        wp_seq).
  do 2 wp_step. unfold clients.
  do 4 (wp_seq; apply wp_construct; cbv beta match zeta;
        [intros _ | intros Hnew; right; left; split; [reflexivity | eauto]]).
  wp_seq.
  fold (chosen_location w).
  set (g := chosen_group w). set (l := chosen_location w).
  set (r0 := length (rg_plan w)).
  set (t0 := length (List.filter is_rg_create (rg_plan w))).
  match goal with |- wp _ ?s _ => set (st0 := s) end.
  assert (C0 : calls (log st0) = []) by reflexivity.
  wp_seq. eapply wp_mono;
    [apply determine_resource_group_wired; reflexivity|].
  intros [rg|h] st1 H; [|do 4 right; left; exact H].
  destruct H as (-> & I1 & R1 & K1). fold g r0 in R1. fold t0 in K1.
  unfold create_networking, create_network. wp_step.
  wp_put_step vnet_id Hvnet;
    [|do 4 right; left; refused_tac Hvnet].
  wp_put_step subnet_id Hsubnet;
    [|do 4 right; left; refused_tac Hsubnet].
  cbn [requests logged asked ticked] in Hsubnet. rewrite R1 in Hsubnet.
  wp_step. unfold create_nsg. do 2 wp_step.
  cbn [ticks logged asked ticked]. rewrite K1.
  set (nsg_name := "ArmNSG-" +:+ g +:+ "-" +:+ pretty (clock w t0)).
  wp_put_step nsg_id Hnsg;
    [|do 4 right; left; refused_tac Hnsg].
  cbn [requests logged asked ticked] in Hnsg. rewrite R1 in Hnsg.
  wp_seq. eapply wp_mono;
    [apply wp_conj;
       [apply rules_loop_spec | apply rules_loop_counts]|].
  intros [priority|h] st2 [(rs & I2 & Hrs) H2];
    [|do 4 right; left; exact H2].
  destruct H2 as [R2 K2]. rewrite prioritised_ports in Hrs. subst rs.
  cbn [requests ticks logged asked ticked] in R2, K2.
  rewrite R1 in R2. rewrite K1 in K2.
  wp_step. unfold create_public_ip. do 2 wp_step.
  cbn [ticks logged asked ticked]. rewrite K2.
  set (pubip_name :=
         "ArmPublicIP-" +:+ g +:+ "-" +:+ pretty (clock w (S t0))).
  wp_put_step pubip_id Hpubip;
    [|do 4 right; left; refused_tac Hpubip].
  cbn [requests logged asked ticked] in Hpubip. rewrite R2 in Hpubip.
  wp_step. unfold create_nic. do 2 wp_step.
  cbn [ticks logged asked ticked]. rewrite K2.
  set (nic_name := "ArmNIC-" +:+ g +:+ "-" +:+ pretty (clock w (S (S t0)))).
  wp_put_step nic_id Hnic;
    [|do 4 right; left; refused_tac Hnic].
  cbn [requests logged asked ticked] in Hnic. rewrite R2 in Hnic.
  do 2 wp_step.
  unfold deploy_vm, create_vm. do 2 wp_step.
  cbn [ticks logged asked ticked]. rewrite K2.
  set (vm_name := "ArmVM-" +:+ g +:+ "-" +:+ pretty (clock w (S (S (S t0))))).
  wp_seq. destruct (ssh_key_file w) as [key|] eqn:Hkey;
    [|do 2 wp_step; right; right; left; split; [reflexivity | exact Hkey]].
  destruct (ssh_key_opens w) eqn:Hopen;
    [|wp_step; do 3 right; left; split; [reflexivity | exact Hopen]].
  wp_step. wp_put_step vm_id Hvm;
    [|do 4 right; left; refused_tac Hvm].
  wp_step. unfold retrieve_public_ip. wp_seq.
  apply wp_get; cbv beta match zeta;
    [|intros Hno; do 4 right; left; refused_tac Hno].
  intros ip0 Hget0.
  cbn [requests logged asked ticked] in Hget0. rewrite R2 in Hget0.
  wp_seq.
  eapply wp_mono;
    [exact (poll_loop_spec w g pubip_name fuel 0%nat ip0 _ ltac:(lia))|].
  intros [[ip elapsed]|h] st3 (k & Hk & Hlog & R3 & Hfirst & Hmid & Hr).
  2:{ destruct Hr as [(-> & _ & Hno) | (-> & Hlt)].
      - do 4 right; left. refused_tac Hno.
      - do 5 right. split; [reflexivity | lia]. }
  apply issued_rounds in Hlog as I3.
  cbn [requests logged asked ticked] in R3, Hmid, Hr. rewrite R2 in R3, Hmid, Hr.
  destruct Hr as (_ & Hend & Hzero & Hlast).
  do 3 wp_step. cbn [fst snd].
  exists (Build_deployment g l nsg_name pubip_name nic_name vm_name
            subnet_id nsg_id pubip_id nic_id key), (S k).
  cbn [d_rg d_vm d_location d_nsg d_pubip d_nic d_subnet_id d_nsg_id
       d_pubip_id d_nic_id d_key].
  do 3 (split; [reflexivity|]). split.
  { apply (issued_calls st0 _ _ C0). eapply issued_eq; [issued_tac|].
    unfold all_requests, network_requests, rule_requests, vnet_request,
      subnet_request, nsg_request, pubip_request, nic_request, vm_request,
      poll_request.
    cbn [d_rg d_vm d_location d_nsg d_pubip d_nic d_subnet_id d_nsg_id
         d_pubip_id d_nic_id d_key].
    rewrite <- !app_assoc. cbn [app replicate]. reflexivity. }
  split.
  { match goal with |- writes (log ?s) = [] =>
      assert (I4 : ∃ rs, issued st0 s rs) by (eexists; issued_tac) end.
    destruct I4 as (rs & _ & ->). reflexivity. }
  do 2 (split; [reflexivity|]). cbv zeta. fold r0 t0.
  assert (Hports : length ports = 10%nat) by reflexivity.
  rewrite Hports in *.
  replace (t0 + 1)%nat with (S t0) by lia.
  replace (t0 + 2)%nat with (S (S t0)) by lia.
  replace (t0 + 3)%nat with (S (S (S t0))) by lia.
  do 4 (split; [reflexivity|]).
  replace (r0 + 1)%nat with (S r0) by lia.
  replace (r0 + 2)%nat with (S (S r0)) by lia.
  replace (r0 + 13)%nat with (S (S (S r0)) + 10)%nat by lia.
  replace (r0 + 14)%nat with (S (S (S (S r0)) + 10))%nat by lia.
  split; [exact Hsubnet|]. split; [exact Hnsg|]. split; [exact Hpubip|].
  split; [exact Hnic|]. split; [reflexivity|]. split; [lia|].
  assert (T0 : (0 < k)%nat → truthy ip0 = false).
  { intros Hpos. destruct (truthy ip0); [|reflexivity].
    specialize (Hfirst eq_refl). lia. }
  split; [|split].
  - intros [|i] Hi.
    + exists ip0. split; [|apply T0; lia].
      rewrite <- Hget0. f_equal. lia.
    + destruct (Hmid i ltac:(lia)) as (v & Hv & Tv).
      exists v. split; [|exact Tv]. rewrite <- Hv. f_equal. lia.
  - destruct k as [|k].
    + rewrite (Hzero eq_refl), <- Hget0. f_equal. lia.
    + rewrite <- (Hlast ltac:(lia)). f_equal. lia.
  - destruct Hend as [?|Hend]; [now left | right; lia].
Qed.

(** A run that completes went through the whole script: [provision]
    returned a non-empty address and the summary was written after it. *)
Lemma completed_run fuel w st :
  run fuel w = (inl tt, st) →
  ∃ rg_name vm_name location ip st_p out,
    provision w fuel initial =
      (inl (rg_name, vm_name, location, Some ip), st_p) ∧
    ip ≠ "" ∧
    log st =
      log st_p ++ out ++
        [WriteFile "/tmp/azure-instance-info.txt"
           (info rg_name vm_name location ip ("ssh azureuser@" +:+ ip));
         Stdout "Instance info saved to /tmp/azure-instance-info.txt."] ∧
    calls out = [] ∧ writes out = [].
Proof.
  intros E. apply run_inv in E; [|discriminate].
  destruct (provision w fuel initial) as [[[[[rg vm] loc] ip]|h] st_p] eqn:P.
  2:{ unfold main, mbind, M_bind in E. rewrite P in E. discriminate E. }
  rewrite (main_provision _ _ _ _ _ _ _ _ P) in E.
  destruct (truthy ip) eqn:T.
  - apply truthy_Some in T as (s & -> & Hs).
    destruct (report_written rg vm loc s st_p Hs)
      as (out & st' & E' & _ & Hlog & Hc & Hw).
    rewrite E' in E. injection E as <-.
    exists rg, vm, loc, s, st_p, out. auto.
  - rewrite (report_timeout _ _ _ _ _ T) in E. discriminate E.
Qed.

(** What [provision_wired] says of a run that completes. *)
Lemma completed_run_wired fuel w st :
  run fuel w = (inl tt, st) →
  ∃ d (n : nat) ip,
    calls (log st) = all_requests d (rg_plan w) n ∧
    writes (log st) =
      [("/tmp/azure-instance-info.txt",
        info (d_rg d) (d_vm d) (d_location d) ip ("ssh azureuser@" +:+ ip))] ∧
    ip ≠ "" ∧
    d_rg d = chosen_group w ∧ d_location d = chosen_location w ∧
    let r0 := length (rg_plan w) in
    let t0 := length (List.filter is_rg_create (rg_plan w)) in
    d_nsg d = "ArmNSG-" +:+ d_rg d +:+ "-" +:+ pretty (clock w t0) ∧
    d_pubip d =
      "ArmPublicIP-" +:+ d_rg d +:+ "-" +:+ pretty (clock w (t0 + 1)) ∧
    d_nic d = "ArmNIC-" +:+ d_rg d +:+ "-" +:+ pretty (clock w (t0 + 2)) ∧
    d_vm d = "ArmVM-" +:+ d_rg d +:+ "-" +:+ pretty (clock w (t0 + 3)) ∧
    azure_put w (r0 + 1) (subnet_request d) = Some (d_subnet_id d) ∧
    azure_put w (r0 + 2) (nsg_request d) = Some (d_nsg_id d) ∧
    azure_put w (r0 + 13) (pubip_request d) = Some (d_pubip_id d) ∧
    azure_put w (r0 + 14) (nic_request d) = Some (d_nic_id d) ∧
    ssh_key_file w = Some (d_key d) ∧
    (1 ≤ n ≤ 31)%nat ∧
    (∀ i, (i + 1 < n)%nat → ∃ v,
       azure_get w (r0 + 16 + i) (poll_request d) = Some v ∧
       truthy v = false) ∧
    azure_get w (r0 + 15 + n) (poll_request d) = Some (Some ip).
Proof.
  intros E.
  destruct (completed_run fuel w st E)
    as (rg & vm & loc & ip & st_p & out & P & Hip & Hlog & Hc & Hw).
  pose proof (wp_run _ _ _ _ _ (provision_wired fuel w) P) as H.
  cbv beta match in H.
  destruct H as (d & n & -> & -> & -> & Hcalls & Hwrites & Hrest).
  exists d, n, ip.
  split; [rewrite Hlog, !calls_app, Hc, Hcalls; simpl; now rewrite app_nil_r|].
  split; [rewrite Hlog, !writes_app, Hw, Hwrites; reflexivity|].
  split; [exact Hip|].
  destruct Hrest as (Hg & Hl & Hrest). split; [exact Hg|]. split; [exact Hl|].
  cbv zeta in *.
  destruct Hrest as (N1 & N2 & N3 & N4 & I1 & I2 & I3 & I4 & K & Hn & Hmid &
                     Hlast & _).
  auto 20.
Qed.

(** X8: in a run that completes, the resources are tied together by the
    identifiers the SDK returned: the network interface is created with the
    [id] of the subnet, of the security group and of the public IP as they
    came back from their own requests, and the virtual machine with the [id]
    of that interface and the key read from the key file. *)
Theorem resources_tied_by_returned_ids fuel w st :
  run fuel w = (inl tt, st) →
  ∃ d (n : nat),
    calls (log st) = all_requests d (rg_plan w) n ∧
    azure_put w (length (rg_plan w) + 1) (subnet_request d)
      = Some (d_subnet_id d) ∧
    azure_put w (length (rg_plan w) + 2) (nsg_request d)
      = Some (d_nsg_id d) ∧
    azure_put w (length (rg_plan w) + 13) (pubip_request d)
      = Some (d_pubip_id d) ∧
    azure_put w (length (rg_plan w) + 14) (nic_request d)
      = Some (d_nic_id d) ∧
    ssh_key_file w = Some (d_key d).
Proof.
  intros E.
  destruct (completed_run_wired fuel w st E)
    as (d & n & ip & Hcalls & _ & _ & _ & _ & H).
  cbv zeta in H.
  destruct H as (_ & _ & _ & _ & I1 & I2 & I3 & I4 & K & _).
  exists d, n. auto 10.
Qed.

Lemma resources_tied_by_returned_ids_witness :
  ∃ d (n : nat),
    calls (log (run 30 world_ok).2) = all_requests d (rg_plan world_ok) n ∧
    azure_put world_ok (length (rg_plan world_ok) + 1) (subnet_request d)
      = Some (d_subnet_id d) ∧
    azure_put world_ok (length (rg_plan world_ok) + 2) (nsg_request d)
      = Some (d_nsg_id d) ∧
    azure_put world_ok (length (rg_plan world_ok) + 13) (pubip_request d)
      = Some (d_pubip_id d) ∧
    azure_put world_ok (length (rg_plan world_ok) + 14) (nic_request d)
      = Some (d_nic_id d) ∧
    ssh_key_file world_ok = Some (d_key d).
Proof.
  apply (resources_tied_by_returned_ids 30 world_ok).
  vm_compute. reflexivity.
Defined.

(** X9: in a run that completes, the resources live in the group and the
    location the script settled on, and the security group, the public IP,
    the network interface and the virtual machine are named after that
    group and four successive readings of the clock, taken in this order;
    the first of them is the second reading of the run when the script
    created the group (whose name took the first), and the first reading
    otherwise. *)
Theorem names_follow_the_clock fuel w st :
  run fuel w = (inl tt, st) →
  ∃ d (n : nat) (t0 : nat),
    calls (log st) = all_requests d (rg_plan w) n ∧
    t0 = length (List.filter is_rg_create (rg_plan w)) ∧
    d_rg d = chosen_group w ∧ d_location d = chosen_location w ∧
    d_nsg d = "ArmNSG-" +:+ d_rg d +:+ "-" +:+ pretty (clock w t0) ∧
    d_pubip d =
      "ArmPublicIP-" +:+ d_rg d +:+ "-" +:+ pretty (clock w (t0 + 1)) ∧
    d_nic d = "ArmNIC-" +:+ d_rg d +:+ "-" +:+ pretty (clock w (t0 + 2)) ∧
    d_vm d = "ArmVM-" +:+ d_rg d +:+ "-" +:+ pretty (clock w (t0 + 3)).
Proof.
  intros E.
  destruct (completed_run_wired fuel w st E)
    as (d & n & ip & Hcalls & _ & _ & Hg & Hl & H).
  cbv zeta in H. destruct H as (N1 & N2 & N3 & N4 & _).
  exists d, n, (length (List.filter is_rg_create (rg_plan w))). auto 10.
Qed.

Lemma names_follow_the_clock_witness :
  ∃ d (n : nat) (t0 : nat),
    calls (log (run 30 world_existing_rg).2) =
      all_requests d (rg_plan world_existing_rg) n ∧
    t0 = length (List.filter is_rg_create (rg_plan world_existing_rg)) ∧
    d_rg d = chosen_group world_existing_rg ∧
    d_location d = chosen_location world_existing_rg ∧
    d_nsg d =
      "ArmNSG-" +:+ d_rg d +:+ "-" +:+
      pretty (clock world_existing_rg t0) ∧
    d_pubip d =
      "ArmPublicIP-" +:+ d_rg d +:+ "-" +:+
      pretty (clock world_existing_rg (t0 + 1)) ∧
    d_nic d =
      "ArmNIC-" +:+ d_rg d +:+ "-" +:+
      pretty (clock world_existing_rg (t0 + 2)) ∧
    d_vm d =
      "ArmVM-" +:+ d_rg d +:+ "-" +:+
      pretty (clock world_existing_rg (t0 + 3)).
Proof.
  apply (names_follow_the_clock 30 world_existing_rg).
  vm_compute. reflexivity.
Defined.

(** X10: the address of the summary is the first non-empty one the SDK
    returned: in a run that completes after [n] readings, the first [n - 1]
    readings came back empty, the last one gave the address, and that
    address is the one written to the file. *)
Theorem first_address_is_reported fuel w st :
  run fuel w = (inl tt, st) →
  ∃ d (n : nat) ip,
    calls (log st) = all_requests d (rg_plan w) n ∧
    (1 ≤ n ≤ 31)%nat ∧
    (∀ i, (i + 1 < n)%nat → ∃ v,
       azure_get w (length (rg_plan w) + 16 + i) (poll_request d) = Some v ∧
       truthy v = false) ∧
    azure_get w (length (rg_plan w) + 15 + n) (poll_request d)
      = Some (Some ip) ∧
    ip ≠ "" ∧
    writes (log st) =
      [("/tmp/azure-instance-info.txt",
        info (d_rg d) (d_vm d) (d_location d) ip ("ssh azureuser@" +:+ ip))].
Proof.
  intros E.
  destruct (completed_run_wired fuel w st E)
    as (d & n & ip & Hcalls & Hw & Hip & _ & _ & H).
  cbv zeta in H.
  destruct H as (_ & _ & _ & _ & _ & _ & _ & _ & _ & Hn & Hmid & Hlast).
  exists d, n, ip. auto 10.
Qed.

Lemma first_address_is_reported_witness :
  ∃ d (n : nat) ip,
    calls (log (run 30 world_ok).2) = all_requests d (rg_plan world_ok) n ∧
    (1 ≤ n ≤ 31)%nat ∧
    (∀ i, (i + 1 < n)%nat → ∃ v,
       azure_get world_ok (length (rg_plan world_ok) + 16 + i)
         (poll_request d) = Some v ∧
       truthy v = false) ∧
    azure_get world_ok (length (rg_plan world_ok) + 15 + n) (poll_request d)
      = Some (Some ip) ∧
    ip ≠ "" ∧
    writes (log (run 30 world_ok).2) =
      [("/tmp/azure-instance-info.txt",
        info (d_rg d) (d_vm d) (d_location d) ip ("ssh azureuser@" +:+ ip))].
Proof.
  apply (first_address_is_reported 30 world_ok).
  vm_compute. reflexivity.
Defined.

(** X11: the script gets to its summary whenever nothing stands in its way.
    With the required variables set and not empty, constructors that do not
    raise, a key file that exists and can be read, an SDK that raises on no
    request, and a non-empty address at one of the 31 readings, every
    resource is requested and the script reaches the summary section with
    that non-empty address. *)
Theorem provisioning_succeeds_when_nothing_fails fuel w key (i : nat) :
  (30 ≤ fuel)%nat →
  Forall (λ name, truthy (environ w !! name) = true) (required_variables w) →
  (∀ class args, azure_new w class args = true) →
  ssh_key_file w = Some key →
  ssh_key_opens w = true →
  (∀ n r, ¬ refused w n r) →
  (i ≤ 30)%nat →
  (∀ r v, azure_get w (length (rg_plan w) + 16 + i) r = Some v →
          truthy v = true) →
  ∃ d (n : nat) ip st,
    provision w fuel initial =
      (inl (d_rg d, d_vm d, d_location d, Some ip), st) ∧
    ip ≠ "" ∧
    calls (log st) = all_requests d (rg_plan w) n.
Proof.
  intros Hfuel Hvars Hnew Hkey Hopen Hsdk Hi Hip.
  destruct (provision w fuel initial) as [[[[[rg vm] loc] ip]|h] st_p] eqn:P;
    pose proof (wp_run _ _ _ _ _ (provision_wired fuel w) P) as H;
    cbv beta match in H.
  - destruct H as (d & n & -> & -> & -> & Hcalls & _ & _ & _ & H).
    cbv zeta in H.
    destruct H as (_ & _ & _ & _ & _ & _ & _ & _ & _ & Hn & Hmid & Hlast &
                   Hend).
    assert (T : truthy ip = true).
    { destruct Hend as [T| ->]; [exact T|].
      destruct (decide (i = 30%nat)) as [->|Hne].
      - apply (Hip (poll_request d)). rewrite <- Hlast. f_equal. lia.
      - destruct (Hmid i ltac:(lia)) as (v & Hv & Tv).
        rewrite (Hip _ _ Hv) in Tv. discriminate Tv. }
    apply truthy_Some in T as (s & -> & Hs).
    exists d, n, s, st_p. auto.
  - exfalso.
    destruct H as [(_ & name & Hin & T)
                  |[(_ & class & args & Hno)
                   |[(_ & Hno)
                    |[(_ & Hno)
                     |[(_ & n & r & Hno)|(_ & Hlt)]]]]].
    + rewrite Forall_forall in Hvars. rewrite (Hvars _ Hin) in T.
      discriminate T.
    + rewrite Hnew in Hno. discriminate Hno.
    + congruence.
    + congruence.
    + exact (Hsdk n r Hno).
    + lia.
Qed.

Lemma provisioning_succeeds_when_nothing_fails_witness :
  ∃ d (n : nat) ip st,
    provision world_ok 30 initial =
      (inl (d_rg d, d_vm d, d_location d, Some ip), st) ∧
    ip ≠ "" ∧
    calls (log st) = all_requests d (rg_plan world_ok) n.
Proof.
  apply (provisioning_succeeds_when_nothing_fails
           30 world_ok "ssh-rsa AAAA" 2).
  - lia.
  - vm_compute. repeat constructor.
  - reflexivity.
  - reflexivity.
  - reflexivity.
  - intros n [] H; simpl in H; try discriminate H.
    destruct (decide (n < 20)%nat); discriminate H.
  - lia.
  - intros r v. vm_compute. intros [= <-]. reflexivity.
Defined.
